(** * Currency converter (script.js): a shallow embedding and its properties

    The page script is modelled function by function.

    - Numbers are IEEE 754 binary64 values, the kernel's primitive floats;
      [parseFloat], [Number::toString] and [Number.prototype.toFixed] are
      written out over exact integer arithmetic, following ECMA-262.
    - Strings are sequences of code units below 256.
    - The page is a record of the elements the script selects; the two
      [select] elements are drop-downs, whose [value] and [appendChild]
      follow the HTML standard.
    - An [async] function is a tree that suspends at every [await]; the
      remote service is a function from URLs to settled responses.
    - The body of a response is the document its endpoint serves, as far as
      the script reads it: an object from codes to names for [/currencies],
      an object whose [rates] maps codes to JSON primitives for [/latest],
      or [null].
    - The text [Intl.NumberFormat] produces depends on the host's locale and
      is a parameter of the script; that its constructor throws on a
      currency code that is not well formed (ECMA-402) is modelled. *)

From Stdlib Require Import ZArith Floats Ascii String List Lia Bool.
From Stdlib Require Import QArith Qabs Qpower Lqa.
From stdpp Require Import gmap strings list sorting.
Import ListNotations.

#[local] Close Scope Q_scope.
#[local] Open Scope string_scope.
#[local] Open Scope Z_scope.

(** ** Decimal digits *)

Module Digits.

Definition is_digit (c : ascii) : bool :=
  let n := nat_of_ascii c in (48 <=? n)%nat && (n <=? 57)%nat.

Definition digit_value (c : ascii) : Z := Z.of_nat (nat_of_ascii c) - 48.

Definition digit_char (d : Z) : ascii := ascii_of_nat (Z.to_nat (48 + d)).

(** The integer a string of decimal digits denotes, most significant first. *)
Fixpoint value_from (acc : Z) (s : string) : Z :=
  match s with
  | EmptyString => acc
  | String c r => value_from (10 * acc + digit_value c) r
  end.

Definition value (s : string) : Z := value_from 0 s.

(** The decimal representation of a positive integer; [fuel] bounds the
    number of digits. *)
Fixpoint render (fuel : nat) (n : Z) (acc : string) : string :=
  match fuel with
  | O => acc
  | S fuel' =>
      if n <? 10 then String (digit_char n) acc
      else render fuel' (n / 10) (String (digit_char (n mod 10)) acc)
  end.

(** "0" for zero, otherwise the digits of [n] without leading zeros. *)
Definition of_Z (n : Z) : string :=
  if n <=? 0 then "0" else render (S (Z.to_nat (Z.log2 n))) n "".

Fixpoint all_digits (s : string) : bool :=
  match s with
  | EmptyString => true
  | String c r => is_digit c && all_digits r
  end.

Fixpoint zeros (n : nat) : string :=
  match n with O => "" | S k => String "0" (zeros k) end.

(** Longest prefix whose characters satisfy [p], and what follows it. *)
Fixpoint span (p : ascii -> bool) (s : string) : string * string :=
  match s with
  | EmptyString => ("", "")
  | String c r =>
      if p c then let '(a, b) := span p r in (String c a, b) else ("", s)
  end.

(** What follows the prefix [p] in [s], when [s] starts with [p]. *)
Fixpoint strip_prefix (p s : string) : option string :=
  match p, s with
  | EmptyString, _ => Some s
  | String a p', String b s' => if Ascii.eqb a b then strip_prefix p' s' else None
  | String _ _, EmptyString => None
  end.

Fixpoint drop (n : nat) (s : string) : string :=
  match n, s with
  | O, _ => s
  | S k, String _ r => drop k r
  | S _, EmptyString => ""
  end.

Fixpoint take (n : nat) (s : string) : string :=
  match n, s with
  | S k, String c r => String c (take k r)
  | _, _ => ""
  end.

End Digits.

(** ** binary64: exact values and rounding to nearest, ties to even *)

Module Binary64.

(** [n / d] scaled by [2^-e], as a fraction of integers. *)
Definition scale (n d e : Z) : Z * Z :=
  if 0 <=? e then (n, d * 2 ^ e) else (n * 2 ^ (- e), d).

(** [floor (log2 (n / d))] for positive [n] and [d]. *)
Definition floor_log2 (n d : Z) : Z :=
  let b := Z.log2 n - Z.log2 d in
  let '(n', d') := scale n d b in
  if d' <=? n' then b else b - 1.

(** The integer nearest to [n / d], the even one at a tie. *)
Definition nearest_even (n d : Z) : Z :=
  let q := n / d in
  match (2 * (n mod d) ?= d) with
  | Lt => q
  | Gt => q + 1
  | Eq => if Z.even q then q else q + 1
  end.

(** The Number value of the real [n / d], [n >= 0] and [d > 0], with the
    given sign: the nearest binary64 value, ties to even, infinity from
    [2^1024 - 2^970] on.  The significand is taken at the exponent of the
    value, not below that of the subnormal numbers. *)
Definition of_ratio (neg : bool) (n d : Z) : float :=
  if n <=? 0 then SF2Prim (S754_zero neg)
  else
    let e := Z.max (floor_log2 n d - 52) (-1074) in
    let '(n', d') := scale n d e in
    match nearest_even n' d' with
    | Zpos m => SF2Prim (S754_finite neg m e)
    | _ => SF2Prim (S754_zero neg)
    end.

(** The Number value of [m * 10^e]. *)
Definition of_decimal (neg : bool) (m e : Z) : float :=
  if 0 <=? e then of_ratio neg (m * 10 ^ e) 1 else of_ratio neg m (10 ^ (- e)).

(** The real value of a finite float as an integer times a power of two:
    sign, significand, exponent. *)
Definition exact (x : float) : option (bool * Z * Z) :=
  match Prim2SF x with
  | S754_zero s => Some (s, 0, 0)
  | S754_finite s m e => Some (s, Zpos m, e)
  | _ => None
  end.

End Binary64.

(** ** Number built-ins: [Number::toString] and [Number.prototype.toFixed] *)

Module Number.
Import Digits.

(** [n / d] divided by [10^p], as a fraction of integers. *)
Definition scale10 (n d p : Z) : Z * Z :=
  if 0 <=? p then (n, d * 10 ^ p) else (n * 10 ^ (- p), d).

Definition decimal_length (n : Z) : Z := Z.of_nat (String.length (of_Z n)).

(** The [nd] with [10^(nd-1) <= n / d < 10^nd], for positive [n] and [d]. *)
Definition decimal_exponent (n d : Z) : Z :=
  let g := decimal_length n - decimal_length d in
  let '(n', d') := scale10 n d g in
  if d' <=? n' then g + 1 else g.

(** The shortest decimal [s * 10^p] that reads back as [x], whose real
    value is [n / d]: [k] digits are tried for [k = 1, 2, ...]; of two
    candidates of one length the nearer is taken, the even one at a tie. *)
Fixpoint shortest (fuel : nat) (x : float) (n d nd k : Z) : Z * Z :=
  match fuel with
  | O => (n / d, 0)
  | S fuel' =>
      let p := nd - k in
      let '(n', d') := scale10 n d p in
      let lo := n' / d' in
      let hi := lo + 1 in
      let ok_lo := PrimFloat.eqb (Binary64.of_decimal false lo p) x in
      let ok_hi := PrimFloat.eqb (Binary64.of_decimal false hi p) x in
      let lo_nearer :=
        match (n' - lo * d' ?= hi * d' - n') with
        | Lt => true
        | Gt => false
        | Eq => Z.even lo
        end in
      if ok_lo && (negb ok_hi || lo_nearer) then (lo, p)
      else if ok_hi then (hi, p)
      else shortest fuel' x n d nd (k + 1)
  end.

Fixpoint strip_zeros (fuel : nat) (s p : Z) : Z * Z :=
  match fuel with
  | O => (s, p)
  | S fuel' =>
      if (0 <? s) && (s mod 10 =? 0) then strip_zeros fuel' (s / 10) (p + 1)
      else (s, p)
  end.

Definition exponent_suffix (e : Z) : string :=
  (if e <? 0 then "e-" else "e+") ++ of_Z (Z.abs e).

(** Number::toString(x, 10) of a positive finite [x = m * 2^e]. *)
Definition toString_positive (x : float) (m e : Z) : string :=
  let '(n, d) := Binary64.scale m 1 (- e) in
  let nd := decimal_exponent n d in
  let '(s0, p0) := shortest 17 x n d nd 1 in
  let '(s, p) := strip_zeros 17 s0 p0 in
  let ds := of_Z s in
  let k := Z.of_nat (String.length ds) in
  let n := k + p in
  if (k <=? n) && (n <=? 21) then ds ++ zeros (Z.to_nat (n - k))
   else if (0 <? n) && (n <=? 21) then
     take (Z.to_nat n) ds ++ "." ++ drop (Z.to_nat n) ds
   else if (-6 <? n) && (n <=? 0) then "0." ++ zeros (Z.to_nat (- n)) ++ ds
   else if k =? 1 then ds ++ exponent_suffix (n - 1)
   else take 1 ds ++ "." ++ drop 1 ds ++ exponent_suffix (n - 1).

(** Number::toString(x, 10). *)
Definition toString (x : float) : string :=
  match Prim2SF x with
  | S754_nan => "NaN"
  | S754_zero _ => "0"
  | S754_infinity s => if s then "-Infinity" else "Infinity"
  | S754_finite s m e =>
      (if s then "-" else "") ++ toString_positive (PrimFloat.abs x) (Zpos m) e
  end.

(** [x.toFixed(f)] for [0 <= f <= 100]: the script only calls it with 2.
    A value that is not finite, or of magnitude [10^21] or more, is
    returned as [toString] writes it; otherwise [n] is the integer nearest
    to [x * 10^f], the larger one at a tie, written with [f] digits after
    the point. *)
Definition toFixed (x : float) (f : nat) : string :=
  match Binary64.exact x with
  | None => toString x
  | Some (s, m, e) =>
      let sign := if s && (0 <? m) then "-" else "" in
      let '(n, d) := Binary64.scale m 1 (- e) in
      if d * 10 ^ 21 <=? n then sign ++ toString (PrimFloat.abs x)
       else
         let n := (2 * n * 10 ^ Z.of_nat f + d) / (2 * d) in
         let m := of_Z n in
         if (f =? 0)%nat then sign ++ m
         else
           let m := zeros (S f - String.length m) ++ m in
           let k := String.length m in
           sign ++ take (k - f) m ++ "." ++ drop (k - f) m
  end.

(** [isNaN(x)] on a value that is already a Number. *)
Definition isNaN (x : float) : bool := PrimFloat.is_nan x.

End Number.

(** ** Numeric strings: [StrDecimalLiteral], [parseFloat], [StringToNumber] *)

Module Literal.
Import Digits.

(** WhiteSpace and LineTerminator code units below 256: TAB, LF, VT, FF,
    CR, SP and NBSP. *)
Definition is_white_space (c : ascii) : bool :=
  let n := nat_of_ascii c in
  ((9 <=? n)%nat && (n <=? 13)%nat) || (n =? 32)%nat || (n =? 160)%nat.

Fixpoint trim_start (s : string) : string :=
  match s with
  | String c r => if is_white_space c then trim_start r else s
  | EmptyString => ""
  end.

Fixpoint trim_end (s : string) : string :=
  match s with
  | String c r =>
      match trim_end r with
      | EmptyString => if is_white_space c then "" else String c ""
      | r' => String c r'
      end
  | EmptyString => ""
  end.

(** StrUnsignedDecimalLiteral: [Infinity], or digits with an optional
    fraction and an optional exponent. *)
Inductive literal : Type :=
| LInfinity
| LDecimal (int frac : string) (exp : Z).

(** An optional [+] or [-]: is it [-], and what follows. *)
Definition sign_of (s : string) : bool * string :=
  match s with
  | String "-" r => (true, r)
  | String "+" r => (false, r)
  | _ => (false, s)
  end.

Definition is_exponent_indicator (c : ascii) : bool :=
  (nat_of_ascii c =? 101)%nat || (nat_of_ascii c =? 69)%nat.

(** ExponentPart, read only when [e] or [E] is followed by a SignedInteger. *)
Definition exponent_part (s : string) : Z * string :=
  match s with
  | String c r =>
      if is_exponent_indicator c then
        let '(neg, r1) := sign_of r in
        let '(ds, r2) := span is_digit r1 in
        match ds with
        | EmptyString => (0, s)
        | _ => (if neg then - value ds else value ds, r2)
        end
      else (0, s)
  | EmptyString => (0, s)
  end.

(** The longest prefix of [s] that is a StrUnsignedDecimalLiteral, and what
    follows it. *)
Definition scan_unsigned (s : string) : option (literal * string) :=
  match strip_prefix "Infinity" s with
  | Some rest => Some (LInfinity, rest)
  | None =>
      let '(ip, s1) := span is_digit s in
      match s1 with
      | String "." r =>
          let '(fp, s2) := span is_digit r in
          match ip, fp with
          | EmptyString, EmptyString => None
          | _, _ => let '(e, s3) := exponent_part s2 in Some (LDecimal ip fp e, s3)
          end
      | _ =>
          match ip with
          | EmptyString => None
          | _ => let '(e, s3) := exponent_part s1 in Some (LDecimal ip "" e, s3)
          end
      end
  end.

(** The longest prefix that is a StrDecimalLiteral: sign, literal, rest. *)
Definition scan (s : string) : option (bool * literal * string) :=
  let '(neg, r) := sign_of s in
  match scan_unsigned r with
  | Some (l, rest) => Some (neg, l, rest)
  | None => None
  end.

(** StringNumericValue of a StrDecimalLiteral: the Number value of its
    mathematical value (rounded exactly, as engines do, also beyond 20
    significant digits). *)
Definition number_of (neg : bool) (l : literal) : float :=
  match l with
  | LInfinity => if neg then neg_infinity else infinity
  | LDecimal ip fp e =>
      Binary64.of_decimal neg (value (ip ++ fp)) (e - Z.of_nat (String.length fp))
  end.

Definition is_radix_digit (radix : Z) (c : ascii) : bool :=
  let n := Z.of_nat (nat_of_ascii c) in
  if (48 <=? n) && (n <=? 57) then n - 48 <? radix
  else if (97 <=? n) && (n <=? 102) then n - 87 <? radix
  else if (65 <=? n) && (n <=? 70) then n - 55 <? radix
  else false.

Definition radix_digit_value (c : ascii) : Z :=
  let n := Z.of_nat (nat_of_ascii c) in
  if n <=? 57 then n - 48 else if 97 <=? n then n - 87 else n - 55.

Fixpoint radix_value (radix acc : Z) (s : string) : option Z :=
  match s with
  | EmptyString => Some acc
  | String c r =>
      if is_radix_digit radix c then radix_value radix (radix * acc + radix_digit_value c) r
      else None
  end.

(** NonDecimalIntegerLiteral: [0x], [0o] or [0b] and at least one digit. *)
Definition non_decimal (s : string) : option Z :=
  match s with
  | String "0" (String c (String d r)) =>
      let digits := String d r in
      match c with
      | "x"%char | "X"%char => radix_value 16 0 digits
      | "o"%char | "O"%char => radix_value 8 0 digits
      | "b"%char | "B"%char => radix_value 2 0 digits
      | _ => None
      end
  | _ => None
  end.

End Literal.

(** [parseFloat(string)]: leading white space is skipped, the longest prefix
    that is a StrDecimalLiteral is read, and NaN is returned when there is
    none. *)
Definition parseFloat (s : string) : float :=
  match Literal.scan (Literal.trim_start s) with
  | Some (neg, l, _) => Literal.number_of neg l
  | None => nan
  end.

(** StringToNumber: the whole string, white space trimmed at both ends, is
    empty (+0), a StrDecimalLiteral or a NonDecimalIntegerLiteral; NaN
    otherwise. *)
Definition StringToNumber (s : string) : float :=
  let t := Literal.trim_end (Literal.trim_start s) in
  match t with
  | EmptyString => PrimFloat.zero
  | _ =>
      match Literal.scan t with
      | Some (neg, l, EmptyString) => Literal.number_of neg l
      | _ =>
          match Literal.non_decimal t with
          | Some n => Binary64.of_ratio false n 1
          | None => nan
          end
      end
  end.

(** ** Values read from a parsed JSON document *)

(** What a property read on the [rates] object can give: nothing, a JSON
    primitive, or a member of [Object.prototype] found along the prototype
    chain (a built-in function, or the prototype itself for [__proto__]). *)
Inductive jsval : Type :=
| JUndefined
| JNull
| JBool (b : bool)
| JNum (x : float)
| JStr (s : string)
| JInherited.

Definition ToBoolean (v : jsval) : bool :=
  match v with
  | JUndefined | JNull => false
  | JBool b => b
  | JNum x => negb (PrimFloat.is_zero x || PrimFloat.is_nan x)
  | JStr s => negb (String.eqb s "")
  | JInherited => true
  end.

(** The operand conversion of [*]; the string form of a built-in function
    or of a plain object is not a numeric literal. *)
Definition ToNumber (v : jsval) : float :=
  match v with
  | JUndefined => nan
  | JNull => PrimFloat.zero
  | JBool b => if b then PrimFloat.one else PrimFloat.zero
  | JNum x => x
  | JStr s => StringToNumber s
  | JInherited => nan
  end.

Definition Object_prototype_names : list string :=
  [ "constructor"; "hasOwnProperty"; "isPrototypeOf"; "propertyIsEnumerable";
    "toLocaleString"; "toString"; "valueOf"; "__proto__";
    "__defineGetter__"; "__defineSetter__"; "__lookupGetter__"; "__lookupSetter__" ].

(** [o[key]] on an object made by [JSON.parse]: its own property, else what
    [Object.prototype] holds under that name, else [undefined]. *)
Definition Get (o : gmap string jsval) (key : string) : jsval :=
  match o !! key with
  | Some v => v
  | None => if bool_decide (key ∈ Object_prototype_names) then JInherited else JUndefined
  end.

(** The body of [/latest] as the script inspects it: [null], on which a
    property read throws, or a document whose [rates] is an object of
    primitives; [None] stands for a [rates] that is missing or falsy. *)
Inductive latest_doc : Type :=
| LatestNull
| LatestDoc (rates : option (gmap string jsval)).

(** The body of [/currencies]: [null], or an object from code to name. *)
Inductive currencies_doc : Type :=
| CurrenciesNull
| CurrenciesDoc (names : gmap string string).

(** ** Exceptions, promises and responses *)

Inductive exn : Type :=
| Error (message : string)
| TypeError
| RangeError
| SyntaxError.

Inductive settled (A : Type) : Type :=
| Fulfilled (a : A)
| Rejected (e : exn).
Arguments Fulfilled {A} a.
Arguments Rejected {A} e.

Record response (D : Type) : Type := Response {
  ok : bool;
  status : Z;
  json : settled D
}.
Arguments Response {D} ok status json.
Arguments ok {D} r.
Arguments status {D} r.
Arguments json {D} r.

(** ** The page: the elements selected at the top of the script *)

Record input : Type := Input { value : string }.

Record button : Type := Button { disabled : bool }.

(** A message region: its text and its inline [style.display]. *)
Record region : Type := Region { textContent : string; display : string }.

(** A drop-down [select]: its options (value, label) in document order and
    the index of the selected one, if any. *)
Record select : Type := Select {
  options : list (string * string);
  selectedIndex : option nat
}.

Record page : Type := Page {
  amountInput : input;
  fromCurrencySelect : select;
  toCurrencySelect : select;
  convertButton : button;
  resultMessage : region;
  errorMessage : region;
  console : list (string * exn)
}.

Module Select.

(** Reading [select.value]: the value of the selected option, or the empty
    string when none is selected. *)
Definition get_value (sel : select) : string :=
  match selectedIndex sel with
  | Some i => match nth_error (options sel) i with Some o => fst o | None => "" end
  | None => ""
  end.

Fixpoint index_of (v : string) (os : list (string * string)) : option nat :=
  match os with
  | [] => None
  | o :: r => if String.eqb (fst o) v then Some O else option_map S (index_of v r)
  end.

(** Writing [select.value = v]: the first option whose value is [v] becomes
    the selected one, and none is selected when there is no such option. *)
Definition set_value (v : string) (sel : select) : select :=
  Select (options sel) (index_of v (options sel)).

(** [select.appendChild(option)]: the new option comes last, not selected;
    a drop-down that shows no selection then selects its first option. *)
Definition appendChild (o : string * string) (sel : select) : select :=
  Select (options sel ++ [o])
         (match selectedIndex sel with Some i => Some i | None => Some O end).

End Select.

Definition set_fromCurrencySelect (f : select -> select) (s : page) : page :=
  Page (amountInput s) (f (fromCurrencySelect s)) (toCurrencySelect s)
       (convertButton s) (resultMessage s) (errorMessage s) (console s).

Definition set_toCurrencySelect (f : select -> select) (s : page) : page :=
  Page (amountInput s) (fromCurrencySelect s) (f (toCurrencySelect s))
       (convertButton s) (resultMessage s) (errorMessage s) (console s).

Definition set_convertButton_disabled (b : bool) (s : page) : page :=
  Page (amountInput s) (fromCurrencySelect s) (toCurrencySelect s)
       (Button b) (resultMessage s) (errorMessage s) (console s).

Definition set_resultMessage (f : region -> region) (s : page) : page :=
  Page (amountInput s) (fromCurrencySelect s) (toCurrencySelect s)
       (convertButton s) (f (resultMessage s)) (errorMessage s) (console s).

Definition set_errorMessage (f : region -> region) (s : page) : page :=
  Page (amountInput s) (fromCurrencySelect s) (toCurrencySelect s)
       (convertButton s) (resultMessage s) (f (errorMessage s)) (console s).

Definition set_textContent (t : string) (r : region) : region := Region t (display r).

Definition set_display (d : string) (r : region) : region := Region (textContent r) d.

(** [console.error(label, error)]: a line of the console, the page unchanged
    otherwise. *)
Definition console_error (label : string) (e : exn) (s : page) : page :=
  Page (amountInput s) (fromCurrencySelect s) (toCurrencySelect s)
       (convertButton s) (resultMessage s) (errorMessage s) (console s ++ [(label, e)]).

(** ** script.js *)

Definition API_URL : string := "https://api.frankfurter.dev".

(** Shows an error message and hides the result message. *)
Definition displayError (message : string) (s : page) : page :=
  let s := set_errorMessage (set_textContent message) s in
  let s := set_errorMessage (set_display "block") s in
  let s := set_resultMessage (set_display "none") s in
  set_convertButton_disabled false s.

(** Shows the result message and hides the error message. *)
Definition displayResult (message : string) (s : page) : page :=
  let s := set_resultMessage (set_textContent message) s in
  let s := set_resultMessage (set_display "block") s in
  let s := set_errorMessage (set_display "none") s in
  set_convertButton_disabled false s.

(** An [async] function body: it returns, leaving the page as [s], or it
    suspends at an [await] with the page as [s] and goes on, once the promise
    has settled, from the page as it is by then. *)
Inductive async (D : Type) : Type :=
| Return (s : page)
| AwaitFetch (s : page) (url : string) (k : settled (response D) -> page -> async D)
| AwaitJson (s : page) (r : response D) (k : settled D -> page -> async D).
Arguments Return {D} s.
Arguments AwaitFetch {D} s url k.
Arguments AwaitJson {D} s r k.

(** One invocation run to completion with nothing else touching the page
    while it is suspended: the final page and the URLs fetched, in order.
    [net] is the remote service. *)
Fixpoint run {D : Type} (net : string -> settled (response D)) (t : async D)
  : page * list string :=
  match t with
  | Return s => (s, [])
  | AwaitFetch s url k => let '(s', log) := run net (k (net url) s) in (s', url :: log)
  | AwaitJson s r k => run net (k (json r) s)
  end.

(** [`HTTP error! status: ${response.status}`] *)
Definition http_error {D : Type} (r : response D) : exn :=
  Error ("HTTP error! status: " ++ Digits.of_Z (status r)).

(** [Object.keys(data).sort()]: the keys in code-unit order. *)
Definition sorted_keys (data : gmap string string) : list string :=
  merge_sort (λ a b, String.leb a b) (map_to_list data).*1.

(** The body of the [forEach] callback: one option per select. *)
Definition add_option (data : gmap string string) (s : page) (code : string) : page :=
  let label := code ++ " - " ++ default "undefined" (data !! code) in
  let option1 := (code, label) in
  let option2 := (code, label) in
  let s := set_fromCurrencySelect (Select.appendChild option1) s in
  set_toCurrencySelect (Select.appendChild option2) s.

(** Fetches the list of available currency symbols and populates the
    dropdowns. *)
Definition getCurrencies (s : page) : async currencies_doc :=
  let catch error s :=
    displayError "Could not load currency list. Check your network or API status."
      (console_error "Error fetching currencies:" error s) in
  AwaitFetch s (API_URL ++ "/currencies") (fun r s =>
    match r with
    | Rejected error => Return (catch error s)
    | Fulfilled response =>
        if negb (ok response) then Return (catch (http_error response) s)
        else AwaitJson s response (fun d s =>
          match d with
          | Rejected error => Return (catch error s)
          | Fulfilled CurrenciesNull => Return (catch TypeError s)
          | Fulfilled (CurrenciesDoc data) =>
              let currencyCodes := sorted_keys data in
              let s := fold_left (add_option data) currencyCodes s in
              let s := set_fromCurrencySelect (Select.set_value "USD") s in
              let s := set_toCurrencySelect (Select.set_value "EUR") s in
              Return s
          end)
    end).

(** ECMA-402 IsWellFormedCurrencyCode: three ASCII letters. *)
Definition IsWellFormedCurrencyCode (currency : string) : bool :=
  let letter (c : ascii) :=
    let n := nat_of_ascii c in
    ((65 <=? n)%nat && (n <=? 90)%nat) || ((97 <=? n)%nat && (n <=? 122)%nat) in
  (String.length currency =? 3)%nat && forallb letter (list_ascii_of_string currency).

Section Script.

(** What [new Intl.NumberFormat(undefined, {style: 'currency', currency})]
    makes of a number in the host's default locale.  The constructor
    throws a RangeError when [currency] is not well formed. *)
Variable NumberFormat_format : string -> float -> string.

(** Converts the currency based on user input. *)
Definition convertCurrency (s : page) : async latest_doc :=
  let s := set_resultMessage (set_display "none") s in
  let s := set_errorMessage (set_display "none") s in
  let s := set_convertButton_disabled true s in
  let amount := parseFloat (value (amountInput s)) in
  let from := Select.get_value (fromCurrencySelect s) in
  let to := Select.get_value (toCurrencySelect s) in
  if Number.isNaN amount || (amount <=? 0)%float then
    Return (displayError "Please enter a valid amount greater than zero." s)
  else if String.eqb from to then
    Return (displayResult
              (Number.toFixed amount 2 ++ " " ++ from ++ " is equal to "
               ++ Number.toFixed amount 2 ++ " " ++ to ++ ".") s)
  else
    let finally s := set_convertButton_disabled false s in
    let catch error s :=
      displayError "Conversion failed. Please try again or check the API status."
        (console_error "Conversion failed:" error s) in
    let missing := Error "API response was missing exchange rate data." in
    AwaitFetch s (API_URL ++ "/latest?from=" ++ from ++ "&to=" ++ to) (fun r s =>
      match r with
      | Rejected error => Return (finally (catch error s))
      | Fulfilled response =>
          if negb (ok response) then Return (finally (catch (http_error response) s))
          else AwaitJson s response (fun d s =>
            match d with
            | Rejected error => Return (finally (catch error s))
            | Fulfilled LatestNull => Return (finally (catch TypeError s))
            | Fulfilled (LatestDoc None) => Return (finally (catch missing s))
            | Fulfilled (LatestDoc (Some rates)) =>
                if negb (ToBoolean (Get rates to)) then Return (finally (catch missing s))
                else
                  let rate := Get rates to in
                  let convertedAmount := (amount * ToNumber rate)%float in
                  let formattedAmount := Number.toFixed convertedAmount 2 in
                  if negb (IsWellFormedCurrencyCode to) then
                    Return (finally (catch RangeError s))
                  else
                    let formattedResult := NumberFormat_format to convertedAmount in
                    Return (finally (displayResult
                              (Number.toFixed amount 2 ++ " " ++ from
                               ++ " is approximately " ++ formattedResult) s))
            end)
      end).

(** Swaps the 'From' and 'To' currency values. *)
Definition swapCurrencies (s : page) : async latest_doc :=
  let tempValue := Select.get_value (fromCurrencySelect s) in
  let s := set_fromCurrencySelect
             (Select.set_value (Select.get_value (toCurrencySelect s))) s in
  let s := set_toCurrencySelect (Select.set_value tempValue) s in
  convertCurrency s.

End Script.

(** * Properties *)

(** ** Vocabulary *)

(** What one conversion reads from the page. *)
Definition amount_of (s : page) : float := parseFloat (value (amountInput s)).
Definition source_of (s : page) : string := Select.get_value (fromCurrencySelect s).
Definition target_of (s : page) : string := Select.get_value (toCurrencySelect s).

(** The page once [convertCurrency] has hidden both messages and disabled
    the button. *)
Definition started (s : page) : page :=
  set_convertButton_disabled true
    (set_errorMessage (set_display "none") (set_resultMessage (set_display "none") s)).

Definition rate_url (from to : string) : string :=
  API_URL ++ "/latest?from=" ++ from ++ "&to=" ++ to.

Definition catalog_url : string := API_URL ++ "/currencies".

Definition invalid_amount_message : string :=
  "Please enter a valid amount greater than zero.".

Definition conversion_failed_message : string :=
  "Conversion failed. Please try again or check the API status.".

Definition catalog_failed_message : string :=
  "Could not load currency list. Check your network or API status.".

(** What the user sees of a page: everything but the console. *)
Definition shown (s : page) : page :=
  Page (amountInput s) (fromCurrencySelect s) (toCurrencySelect s)
       (convertButton s) (resultMessage s) (errorMessage s) [].

(** Every way an invocation can complete, whatever its promises settle with
    and whatever the page has become while it was suspended, ends in a page
    that satisfies [P]. *)
Inductive ends_in {D : Type} (P : page -> Prop) : async D -> Prop :=
| ends_Return s : P s -> ends_in P (Return s)
| ends_AwaitFetch s url k :
    (forall r s', ends_in P (k r s')) -> ends_in P (AwaitFetch s url k)
| ends_AwaitJson s r k :
    (forall d s', ends_in P (k d s')) -> ends_in P (AwaitJson s r k).

(** The ways the rate request of a conversion to [to] can fail. *)
Inductive rate_fetch_fails (to : string) : settled (response latest_doc) -> Prop :=
| fails_network (e : exn) :
    rate_fetch_fails to (Rejected e)
| fails_status (r : response latest_doc) :
    ok r = false -> rate_fetch_fails to (Fulfilled r)
| fails_body (r : response latest_doc) (e : exn) :
    ok r = true -> json r = Rejected e -> rate_fetch_fails to (Fulfilled r)
| fails_null (r : response latest_doc) :
    ok r = true -> json r = Fulfilled LatestNull -> rate_fetch_fails to (Fulfilled r)
| fails_no_rates (r : response latest_doc) :
    ok r = true -> json r = Fulfilled (LatestDoc None) -> rate_fetch_fails to (Fulfilled r)
| fails_no_rate (r : response latest_doc) (rates : gmap string jsval) :
    ok r = true -> json r = Fulfilled (LatestDoc (Some rates)) -> rates !! to = None ->
    rate_fetch_fails to (Fulfilled r).

(** The ways the catalog request can fail before a body is read. *)
Inductive catalog_fetch_fails : settled (response currencies_doc) -> Prop :=
| catalog_network (e : exn) : catalog_fetch_fails (Rejected e)
| catalog_status (r : response currencies_doc) :
    ok r = false -> catalog_fetch_fails (Fulfilled r).

(** The values a select offers, in document order. *)
Definition option_values (sel : select) : list string := map fst (options sel).

(** The page once [swapCurrencies] has exchanged the two selections. *)
Definition swapped (s : page) : page :=
  set_toCurrencySelect (Select.set_value (source_of s))
    (set_fromCurrencySelect (Select.set_value (target_of s)) s).

(** [t] is one digit or more, a point, and exactly two digits. *)
Definition two_decimals (t : string) : bool :=
  let whole := Digits.take (String.length t - 3) t in
  negb (String.eqb whole "") && Digits.all_digits whole
  && match Digits.drop (String.length t - 3) t with
     | String "." frac => Digits.all_digits frac && (String.length frac =? 2)%nat
     | _ => false
     end.

(** The real value of a finite [x] is below [bound] in magnitude. *)
Definition magnitude_below (x : float) (bound : Z) : bool :=
  match Binary64.exact x with
  | Some (_, m, e) => let '(n, d) := Binary64.scale m 1 (- e) in n <? d * bound
  | None => false
  end.

(** The characters numeric literals are written with. *)
Definition numeric_character (c : ascii) : bool :=
  Digits.is_digit c || Ascii.eqb c "." || Literal.is_exponent_indicator c
  || Ascii.eqb c "+" || Ascii.eqb c "-".

(** One invocation run to completion while other handlers are at work:
    each time it is suspended, [other] is what becomes of the page before it
    goes on. *)
Fixpoint run_among {D : Type} (net : string -> settled (response D))
    (other : page -> page) (t : async D) : page * list string :=
  match t with
  | Return s => (s, [])
  | AwaitFetch s url k =>
      let '(s', log) := run_among net other (k (net url) (other s)) in (s', url :: log)
  | AwaitJson s r k => run_among net other (k (json r) (other s))
  end.

(** What a message region shows: its text, or nothing when it is hidden. *)
Definition visible (r : region) : option string :=
  if String.eqb (display r) "none" then None else Some (textContent r).

(** Exactly one of the two message regions is displayed. *)
Definition one_message_shown (p : page) : Prop :=
  (display (resultMessage p) = "block" /\ display (errorMessage p) = "none")
  \/ (display (resultMessage p) = "none" /\ display (errorMessage p) = "block").

(** The characters a StrDecimalLiteral can start with. *)
Definition can_start_number (c : ascii) : bool :=
  Digits.is_digit c || Ascii.eqb c "+" || Ascii.eqb c "-" || Ascii.eqb c "."
  || Ascii.eqb c "I".

(** After its leading white space, [v] is empty or starts with a character
    no literal starts with. *)
Definition no_number_start (v : string) : bool :=
  match Literal.trim_start v with
  | EmptyString => true
  | String c _ => negb (can_start_number c)
  end.

(** The option [getCurrencies] makes for a code of the catalog. *)
Definition catalog_option (data : gmap string string) (code : string) : string * string :=
  (code, code ++ " - " ++ default "undefined" (data !! code)).

(** A spec float that is not NaN carries the sign [sx]. *)
Definition signed (sx : bool) (x : spec_float) : Prop :=
  match x with
  | S754_nan => True
  | S754_zero s | S754_infinity s | S754_finite s _ _ => s = sx
  end.

(** *** Amounts as real numbers *)







(** ** Sample pages and services, for running the script on examples *)

Module Sample.

(** The page before the script has run: empty controls, nothing shown. *)
Definition blank : page :=
  Page (Input "") (Select [] None) (Select [] None) (Button false)
       (Region "" "none") (Region "" "none") [].

(** A catalog; its last code is not a well-formed currency code. *)
Definition catalog : gmap string string :=
  list_to_map [ ("USD", "United States Dollar"); ("EUR", "Euro");
                ("JPY", "Japanese Yen"); ("EURO", "Euro (long code)") ].

Definition catalog_service (url : string) : settled (response currencies_doc) :=
  Fulfilled (Response true 200 (Fulfilled (CurrenciesDoc catalog))).

(** The page once [getCurrencies] has completed. *)
Definition loaded : page := fst (run catalog_service (getCurrencies blank)).

(** The user types an amount and picks the two currencies. *)
Definition entered (amount from to : string) : page :=
  Page (Input amount)
       (Select.set_value from (fromCurrencySelect loaded))
       (Select.set_value to (toCurrencySelect loaded))
       (convertButton loaded) (resultMessage loaded) (errorMessage loaded)
       (console loaded).

(** A stand-in for the host's currency formatter: code, space, two
    decimals. *)
Definition format (currency : string) (x : float) : string :=
  currency ++ " " ++ Number.toFixed x 2.

(** A service that answers every rate request with the given rates. *)
Definition rates_service (rates : gmap string jsval) (url : string)
  : settled (response latest_doc) :=
  Fulfilled (Response true 200 (Fulfilled (LatestDoc (Some rates)))).

(** The rates [{"EUR": rate}], the rate given as the JSON document writes
    it. *)
Definition euro_at (rate : string) : gmap string jsval :=
  {[ "EUR" := JNum (parseFloat rate) ]}.

(** A service that answers every request with HTTP 500. *)
Definition server_error {D : Type} (url : string) : settled (response D) :=
  Fulfilled (Response false 500 (Rejected SyntaxError)).

End Sample.

(** * Lemmas and theorems *)

(** ** The built-ins on known values *)

Example parseFloat_values :
  map (fun t => Number.toString (parseFloat t))
      [ "100"; "-5"; "12abc"; "  3.14xyz"; ".5"; "5."; "."; "abc"; ""; "1e3"; "1e";
        "12e5"; "-0"; "0x10"; "Infinity"; "-Infinityx"; "1e21"; "1e999"; "0.1" ]
  = [ "100"; "-5"; "12"; "3.14"; "0.5"; "5"; "NaN"; "NaN"; "NaN"; "1000"; "1";
      "1200000"; "0"; "0"; "Infinity"; "-Infinity"; "1e+21"; "Infinity"; "0.1" ].
Proof. vm_compute. reflexivity. Qed.

Example parseFloat_rounds_to_nearest :
  parseFloat "0.1" = 0x1.999999999999ap-4%float
  /\ parseFloat "9007199254740993" = 0x1p+53%float
  /\ parseFloat "1.7976931348623157e308" = 0x1.fffffffffffffp+1023%float
  /\ parseFloat "5e-324" = 0x1p-1074%float.
Proof. repeat split; vm_compute; reflexivity. Qed.

Example toFixed_values :
  map (fun t => Number.toFixed (parseFloat t) 2)
      [ "100"; "1.005"; "0.125"; "8.345"; "123.456"; "0"; "-0"; "0.001"; "-1.5";
        "999999999999999999999"; "1e20"; "1e21"; "Infinity" ]
  = [ "100.00"; "1.00"; "0.13"; "8.35"; "123.46"; "0.00"; "0.00"; "0.00"; "-1.50";
      "1e+21"; "100000000000000000000.00"; "1e+21"; "Infinity" ].
Proof. vm_compute. reflexivity. Qed.

Example toString_values :
  map Number.toString
      [ (parseFloat "0.1" + parseFloat "0.2")%float;
        (parseFloat "100" * parseFloat "0.07")%float;
        parseFloat "1e23"; parseFloat "123456789012345678901234567890";
        parseFloat "0.000001"; parseFloat "1e-7"; nan ]
  = [ "0.30000000000000004"; "7.000000000000001"; "1e+23"; "1.2345678901234568e+29";
      "0.000001"; "1e-7"; "NaN" ].
Proof. vm_compute. reflexivity. Qed.

Example StringToNumber_values :
  map (fun t => Number.toString (StringToNumber t))
      [ "0.9"; " 12 "; "12abc"; ""; "0x1F"; "0b101"; "Infinity"; "1 2" ]
  = [ "0.9"; "12"; "NaN"; "0"; "31"; "5"; "Infinity"; "NaN" ].
Proof. vm_compute. reflexivity. Qed.

Example two_decimals_values :
  map two_decimals [ "100.00"; "0.13"; "1e+21"; "Infinity"; "12.5"; ".50"; "12.345" ]
  = [ true; true; false; false; false; false; false ].
Proof. vm_compute. reflexivity. Qed.

(** The catalog loads in code order, with USD and EUR selected. *)
Example loaded_page :
  option_values (fromCurrencySelect Sample.loaded) = ["EUR"; "EURO"; "JPY"; "USD"]
  /\ option_values (toCurrencySelect Sample.loaded) = ["EUR"; "EURO"; "JPY"; "USD"]
  /\ source_of Sample.loaded = "USD" /\ target_of Sample.loaded = "EUR".
Proof. repeat split; vm_compute; reflexivity. Qed.

(** ** Comparisons with zero *)

Lemma Prim2SF_zero : Prim2SF 0%float = S754_zero false.
Proof. reflexivity. Qed.

Lemma SFcompare_refl_finite s m e :
  SFcompare (S754_finite s m e) (S754_finite s m e) = Some Eq.
Proof.
  simpl. rewrite Z.compare_refl, Pos.compare_cont_refl. by destruct s.
Qed.

(** A number above zero passes the script's validation. *)
Lemma positive_passes (a : float) :
  (0 <? a)%float = true -> Number.isNaN a || (a <=? 0)%float = false.
Proof.
  unfold Number.isNaN, is_nan.
  rewrite FloatAxioms.ltb_spec, FloatAxioms.leb_spec, FloatAxioms.eqb_spec, Prim2SF_zero.
  unfold SFltb, SFleb, SFeqb.
  destruct (Prim2SF a) as [s | s | | s m e] eqn:E; try destruct s; try discriminate;
    intros _; try reflexivity.
  rewrite SFcompare_refl_finite. reflexivity.
Qed.

(** A number that is not above zero, NaN included, fails it. *)
Lemma not_positive_fails (a : float) :
  (0 <? a)%float = false -> Number.isNaN a || (a <=? 0)%float = true.
Proof.
  unfold Number.isNaN, is_nan.
  rewrite FloatAxioms.ltb_spec, FloatAxioms.leb_spec, FloatAxioms.eqb_spec, Prim2SF_zero.
  unfold SFltb, SFleb, SFeqb.
  destruct (Prim2SF a) as [s | s | | s m e] eqn:E; try destruct s; try discriminate;
    intros _; try reflexivity.
  rewrite SFcompare_refl_finite. reflexivity.
Qed.

(** A number above zero is truthy. *)
Lemma positive_truthy (x : float) : (0 <? x)%float = true -> ToBoolean (JNum x) = true.
Proof.
  unfold ToBoolean, is_zero, is_nan.
  rewrite FloatAxioms.ltb_spec, !FloatAxioms.eqb_spec, Prim2SF_zero.
  unfold SFltb, SFeqb.
  destruct (Prim2SF x) as [s | s | | s m e] eqn:E; try destruct s; try discriminate;
    intros _; try reflexivity.
  rewrite SFcompare_refl_finite. reflexivity.
Qed.

(** ** The first steps of a conversion *)

Lemma convertCurrency_invalid fmt (s : page) :
  Number.isNaN (amount_of s) || (amount_of s <=? 0)%float = true ->
  convertCurrency fmt s = Return (displayError invalid_amount_message (started s)).
Proof.
  intros H. unfold convertCurrency.
  change (parseFloat _) with (amount_of s). rewrite H. reflexivity.
Qed.

Lemma convertCurrency_same fmt (s : page) :
  (0 <? amount_of s)%float = true ->
  source_of s = target_of s ->
  convertCurrency fmt s =
  Return (displayResult
            (Number.toFixed (amount_of s) 2 ++ " " ++ source_of s ++ " is equal to "
             ++ Number.toFixed (amount_of s) 2 ++ " " ++ target_of s ++ ".")
            (started s)).
Proof.
  intros Hpos Heq. apply positive_passes in Hpos.
  unfold convertCurrency. cbv zeta.
  change (parseFloat _) with (amount_of s). rewrite Hpos.
  change (Select.get_value (fromCurrencySelect _)) with (source_of s).
  change (Select.get_value (toCurrencySelect _)) with (target_of s).
  rewrite Heq, String.eqb_refl. reflexivity.
Qed.

(** With a valid amount and two different currencies the conversion issues
    the rate request and suspends. *)
Lemma convertCurrency_fetches fmt (s : page) :
  (0 <? amount_of s)%float = true ->
  source_of s <> target_of s ->
  exists k, convertCurrency fmt s
            = AwaitFetch (started s) (rate_url (source_of s) (target_of s)) k.
Proof.
  intros Hpos Hne. apply positive_passes in Hpos. apply String.eqb_neq in Hne.
  unfold convertCurrency. cbv zeta.
  change (parseFloat _) with (amount_of s). rewrite Hpos.
  change (Select.get_value (fromCurrencySelect _)) with (source_of s).
  change (Select.get_value (toCurrencySelect _)) with (target_of s).
  rewrite Hne. eexists. reflexivity.
Qed.

Lemma ends_in_run {D : Type} (P : page -> Prop) (t : async D) :
  ends_in P t -> forall net, P (fst (run net t)).
Proof.
  induction 1 as [s Hs | s url k _ IH | s r k _ IH]; intros net; cbn [run].
  - exact Hs.
  - specialize (IH (net url) s net). by destruct (run net _).
  - apply IH.
Qed.

(** Members of [Object.prototype] are no currency codes. *)
Lemma inherited_not_currency (key : string) :
  key ∈ Object_prototype_names -> IsWellFormedCurrencyCode key = false.
Proof.
  unfold Object_prototype_names. rewrite !elem_of_cons, elem_of_nil.
  intros H. repeat (destruct H as [-> | H]; [reflexivity |]). destruct H.
Qed.

(** Opens [convertCurrency] on a page with a valid amount and two different
    currencies, up to the answer of the rate request. *)
Ltac enter_fetch s Hpos Hne :=
  unfold convertCurrency; cbv zeta;
  change (parseFloat _) with (amount_of s);
  rewrite (positive_passes _ Hpos);
  change (Select.get_value (fromCurrencySelect _)) with (source_of s);
  change (Select.get_value (toCurrencySelect _)) with (target_of s);
  rewrite (proj2 (String.eqb_neq _ _) Hne);
  change (API_URL ++ "/latest?from=" ++ _ ++ "&to=" ++ _)
    with (rate_url (source_of s) (target_of s));
  change (set_convertButton_disabled true _) with (started s);
  cbn [run].

(** The page a failed conversion leaves, console aside. *)
Lemma shown_failure (e : exn) (s : page) :
  shown (set_convertButton_disabled false
           (displayError conversion_failed_message
              (console_error "Conversion failed:" e s)))
  = shown (displayError conversion_failed_message s).
Proof. reflexivity. Qed.

(** Scenario 1: 100 USD to USD. *)
Example scenario_same_currency :
  run (Sample.rates_service ∅)
      (convertCurrency Sample.format (Sample.entered "100" "USD" "USD"))
  = (displayResult "100.00 USD is equal to 100.00 USD."
       (started (Sample.entered "100" "USD" "USD")), []).
Proof. vm_compute. reflexivity. Qed.

(** Scenario 3: 100 USD to EUR at 0.90. *)
Example scenario_conversion :
  run (Sample.rates_service (Sample.euro_at "0.90"))
      (convertCurrency Sample.format (Sample.entered "100" "USD" "EUR"))
  = (displayResult "100.00 USD is approximately EUR 90.00"
       (started (Sample.entered "100" "USD" "EUR")),
     ["https://api.frankfurter.dev/latest?from=USD&to=EUR"]).
Proof. vm_compute. reflexivity. Qed.

(** ** Validation *)

(** C2, as amended: an amount that is not strictly greater than zero, NaN
    included, gets the validation message at once, and no request is made. *)
Theorem invalid_amount_rejected fmt (s : page) :
  (0 <? amount_of s)%float = false ->
  convertCurrency fmt s = Return (displayError invalid_amount_message (started s))
  /\ forall net, snd (run net (convertCurrency fmt s)) = [].
Proof.
  intros H. apply not_positive_fails in H.
  rewrite (convertCurrency_invalid fmt s H). split; [reflexivity | intros net; reflexivity].
Qed.

Lemma invalid_amount_rejected_witness :
  (0 <? amount_of (Sample.entered "-5" "USD" "EUR"))%float = false
  /\ convertCurrency Sample.format (Sample.entered "-5" "USD" "EUR")
     = Return (displayError invalid_amount_message
                 (started (Sample.entered "-5" "USD" "EUR"))).
Proof.
  split; [vm_compute; reflexivity |].
  apply (invalid_amount_rejected Sample.format (Sample.entered "-5" "USD" "EUR")).
  vm_compute; reflexivity.
Defined.

(** C2, as stated, fails: "Infinity" does not parse as a finite number, yet
    it passes the validation, the rate is requested and a result is shown. *)
Lemma infinite_amount_accepted :
  PrimFloat.is_finite (amount_of (Sample.entered "Infinity" "USD" "EUR")) = false
  /\ run (Sample.rates_service (Sample.euro_at "0.90"))
         (convertCurrency Sample.format (Sample.entered "Infinity" "USD" "EUR"))
     = (displayResult "Infinity USD is approximately EUR Infinity"
          (started (Sample.entered "Infinity" "USD" "EUR")),
        ["https://api.frankfurter.dev/latest?from=USD&to=EUR"]).
Proof. split; vm_compute; reflexivity. Qed.

(** ** The button *)

(** C5: however an invocation of [convertCurrency] completes, the convert
    button is enabled by then; in particular when it runs undisturbed. *)
Theorem button_reenabled fmt (s : page) :
  ends_in (fun p => disabled (convertButton p) = false) (convertCurrency fmt s)
  /\ forall net, disabled (convertButton (fst (run net (convertCurrency fmt s)))) = false.
Proof.
  assert (H : ends_in (fun p => disabled (convertButton p) = false) (convertCurrency fmt s)).
  { unfold convertCurrency. cbv zeta.
    destruct (_ || _); [by constructor |].
    destruct (String.eqb _ _); [by constructor |].
    constructor. intros [r | e] s1; [| by constructor].
    destruct (ok r); cbn [negb]; [| by constructor].
    constructor. intros [[| [rates |]] | e] s2; try by constructor.
    destruct (ToBoolean _); cbn [negb]; [| by constructor].
    destruct (IsWellFormedCurrencyCode _); cbn [negb]; by constructor. }
  split; [exact H | intros net; exact (ends_in_run _ _ H net)].
Qed.

(** ** Loading the catalog *)

(** C7: when the catalog request is rejected or answered with a status that
    is not a success, the catalog error is shown and neither select gains an
    option. *)
Theorem catalog_failure_reported (s : page) net :
  catalog_fetch_fails (net catalog_url) ->
  errorMessage (fst (run net (getCurrencies s))) = Region catalog_failed_message "block"
  /\ fromCurrencySelect (fst (run net (getCurrencies s))) = fromCurrencySelect s
  /\ toCurrencySelect (fst (run net (getCurrencies s))) = toCurrencySelect s.
Proof.
  intros H. unfold getCurrencies. cbn [run].
  change (API_URL ++ "/currencies") with catalog_url.
  inversion H as [e He | r Hr He].
  - repeat split.
  - rewrite Hr. repeat split.
Qed.

(** Scenario 4: the catalog request is answered with HTTP 500. *)
Lemma catalog_failure_reported_witness :
  errorMessage (fst (run Sample.server_error (getCurrencies Sample.blank)))
  = Region catalog_failed_message "block"
  /\ fromCurrencySelect (fst (run Sample.server_error (getCurrencies Sample.blank)))
     = Select [] None
  /\ toCurrencySelect (fst (run Sample.server_error (getCurrencies Sample.blank)))
     = Select [] None.
Proof.
  apply (catalog_failure_reported Sample.blank Sample.server_error).
  apply catalog_status. reflexivity.
Defined.

(** ** Failures of the rate request *)

(** C4: once the rate is requested, a rejected request, a status that is not
    a success, and a body without [rates] or without an entry for the target
    all end in the same page: the one message, the result hidden. *)
Theorem rate_failure_reported fmt (s : page) net :
  (0 <? amount_of s)%float = true ->
  source_of s <> target_of s ->
  rate_fetch_fails (target_of s) (net (rate_url (source_of s) (target_of s))) ->
  shown (fst (run net (convertCurrency fmt s)))
  = shown (displayError conversion_failed_message (started s))
  /\ errorMessage (fst (run net (convertCurrency fmt s)))
     = Region conversion_failed_message "block"
  /\ display (resultMessage (fst (run net (convertCurrency fmt s)))) = "none".
Proof.
  intros Hpos Hne Hfail.
  enough (E : shown (fst (run net (convertCurrency fmt s)))
              = shown (displayError conversion_failed_message (started s))).
  { split; [exact E |].
    split; [exact (f_equal errorMessage E) | exact (f_equal (fun p => display (resultMessage p)) E)]. }
  enter_fetch s Hpos Hne.
  inversion Hfail as [e He | r Hr He | r e Hr Hj He | r Hr Hj He | r Hr Hj He
                     | r rates Hr Hj Hm He]; cbn [run fst];
    try rewrite Hr; cbn [negb run fst]; try rewrite Hj; try apply shown_failure.
  unfold Get. rewrite Hm. case_bool_decide as Hin.
  - cbn [ToBoolean negb]. rewrite (inherited_not_currency _ Hin). apply shown_failure.
  - apply shown_failure.
Qed.

(** Scenario 5: the rates of the answer have no entry for the target. *)
Lemma rate_failure_reported_witness :
  shown (fst (run (Sample.rates_service ∅)
                (convertCurrency Sample.format (Sample.entered "100" "USD" "EUR"))))
  = shown (displayError conversion_failed_message
             (started (Sample.entered "100" "USD" "EUR")))
  /\ errorMessage (fst (run (Sample.rates_service ∅)
                (convertCurrency Sample.format (Sample.entered "100" "USD" "EUR"))))
     = Region conversion_failed_message "block"
  /\ display (resultMessage (fst (run (Sample.rates_service ∅)
                (convertCurrency Sample.format (Sample.entered "100" "USD" "EUR")))))
     = "none".
Proof.
  apply (rate_failure_reported Sample.format (Sample.entered "100" "USD" "EUR")
           (Sample.rates_service ∅)).
  - vm_compute; reflexivity.
  - vm_compute; discriminate.
  - eapply fails_no_rate; [reflexivity | reflexivity | apply lookup_empty].
Defined.

(** C9: a rate entry that is falsy (0, -0, NaN, null, false, the empty
    string) is taken for a missing one: the failure message is shown, not a
    result. *)
Theorem falsy_rate_reported fmt (s : page) net (r : response latest_doc)
    (rates : gmap string jsval) (v : jsval) :
  (0 <? amount_of s)%float = true ->
  source_of s <> target_of s ->
  net (rate_url (source_of s) (target_of s)) = Fulfilled r ->
  ok r = true ->
  json r = Fulfilled (LatestDoc (Some rates)) ->
  rates !! target_of s = Some v ->
  ToBoolean v = false ->
  shown (fst (run net (convertCurrency fmt s)))
  = shown (displayError conversion_failed_message (started s))
  /\ errorMessage (fst (run net (convertCurrency fmt s)))
     = Region conversion_failed_message "block"
  /\ display (resultMessage (fst (run net (convertCurrency fmt s)))) = "none".
Proof.
  intros Hpos Hne Hnet Hok Hjson Hrate Hfalsy.
  enough (E : shown (fst (run net (convertCurrency fmt s)))
              = shown (displayError conversion_failed_message (started s))).
  { split; [exact E |].
    split; [exact (f_equal errorMessage E) | exact (f_equal (fun p => display (resultMessage p)) E)]. }
  enter_fetch s Hpos Hne.
  rewrite Hnet. cbn [run fst]. rewrite Hok. cbn [negb run fst]. rewrite Hjson.
  unfold Get. rewrite Hrate, Hfalsy. apply shown_failure.
Qed.

Lemma falsy_rate_reported_witness :
  shown (fst (run (Sample.rates_service (Sample.euro_at "0"))
                (convertCurrency Sample.format (Sample.entered "100" "USD" "EUR"))))
  = shown (displayError conversion_failed_message
             (started (Sample.entered "100" "USD" "EUR")))
  /\ errorMessage (fst (run (Sample.rates_service (Sample.euro_at "0"))
                (convertCurrency Sample.format (Sample.entered "100" "USD" "EUR"))))
     = Region conversion_failed_message "block"
  /\ display (resultMessage (fst (run (Sample.rates_service (Sample.euro_at "0"))
                (convertCurrency Sample.format (Sample.entered "100" "USD" "EUR")))))
     = "none".
Proof.
  apply (falsy_rate_reported Sample.format (Sample.entered "100" "USD" "EUR")
           (Sample.rates_service (Sample.euro_at "0"))
           (Response true 200 (Fulfilled (LatestDoc (Some (Sample.euro_at "0")))))
           (Sample.euro_at "0") (JNum (parseFloat "0"))).
  - vm_compute; reflexivity.
  - vm_compute; discriminate.
  - reflexivity.
  - reflexivity.
  - reflexivity.
  - vm_compute; reflexivity.
  - vm_compute; reflexivity.
Defined.

(** ** Swapping *)

Lemma index_of_found (v : string) (os : list (string * string)) (i : nat) :
  Select.index_of v os = Some i -> exists o, nth_error os i = Some o /\ fst o = v.
Proof.
  revert i. induction os as [| o os IH]; intros i; cbn [Select.index_of]; [discriminate |].
  destruct (String.eqb (fst o) v) eqn:E.
  - intros [= <-]. exists o. split; [reflexivity | by apply String.eqb_eq].
  - destruct (Select.index_of v os) as [j |]; [| discriminate].
    intros [= <-]. destruct (IH j eq_refl) as (o' & Hn & Hv). by exists o'.
Qed.

Lemma index_of_absent (v : string) (os : list (string * string)) :
  Select.index_of v os = None -> ~ In v (map fst os).
Proof.
  induction os as [| o os IH]; cbn [Select.index_of map In]; [tauto |].
  destruct (String.eqb (fst o) v) eqn:E; [discriminate |].
  apply String.eqb_neq in E.
  destruct (Select.index_of v os); [discriminate |]. intros _ [H | H]; [done | by apply IH].
Qed.

(** Reading back a value just written gives it, when the select offers it;
    the empty string reads back as written in any case. *)
Lemma get_set_value (v : string) (sel : select) :
  v = "" \/ In v (option_values sel) ->
  Select.get_value (Select.set_value v sel) = v.
Proof.
  intros H. unfold Select.get_value, Select.set_value. cbn [selectedIndex options].
  destruct (Select.index_of v (options sel)) as [i |] eqn:E.
  - destruct (index_of_found _ _ _ E) as (o & -> & Hv). exact Hv.
  - destruct H as [-> | H]; [reflexivity |]. by apply index_of_absent in E.
Qed.

(** What a select reads is the empty string or one of its option values. *)
Lemma get_value_offered (sel : select) :
  Select.get_value sel = "" \/ In (Select.get_value sel) (option_values sel).
Proof.
  unfold Select.get_value, option_values.
  destruct (selectedIndex sel) as [i |]; [| by left].
  destruct (nth_error (options sel) i) as [o |] eqn:E; [| by left].
  right. apply in_map. by apply nth_error_In in E.
Qed.

(** [getCurrencies] gives both selects the same new options. *)
Lemma add_options_values (data : gmap string string) (codes : list string) (s : page) :
  option_values (fromCurrencySelect (fold_left (add_option data) codes s))
  = (option_values (fromCurrencySelect s) ++ codes)%list
  /\ option_values (toCurrencySelect (fold_left (add_option data) codes s))
     = (option_values (toCurrencySelect s) ++ codes)%list.
Proof.
  revert s. induction codes as [| c codes IH]; intros s; cbn [fold_left].
  - by rewrite !app_nil_r.
  - destruct (IH (add_option data s c)) as [-> ->].
    unfold option_values, add_option. cbn.
    by rewrite !map_app, <- !app_assoc.
Qed.

(** Both selects offering the same values is kept by loading the catalog. *)
Lemma getCurrencies_same_options (s : page) net :
  option_values (fromCurrencySelect s) = option_values (toCurrencySelect s) ->
  option_values (fromCurrencySelect (fst (run net (getCurrencies s))))
  = option_values (toCurrencySelect (fst (run net (getCurrencies s)))).
Proof.
  intros H. unfold getCurrencies. cbn [run fst].
  destruct (net _) as [r | e]; [| exact H].
  destruct (ok r); cbn [negb run fst]; [| exact H].
  destruct (json r) as [[| data] | e]; try exact H.
  change (option_values (fromCurrencySelect (fold_left (add_option data) (sorted_keys data) s))
          = option_values (toCurrencySelect (fold_left (add_option data) (sorted_keys data) s))).
  destruct (add_options_values data (sorted_keys data) s) as [-> ->]. by rewrite H.
Qed.

(** C6: on a page whose two selects offer the same values, as they do once
    the catalog is loaded, [swapCurrencies] is [convertCurrency] on the page
    with the two selections exchanged, with no check of its own; so a rate it
    requests is the one from the old target to the old source. *)
Theorem swap_then_convert fmt (s : page) :
  option_values (fromCurrencySelect s) = option_values (toCurrencySelect s) ->
  swapCurrencies fmt s = convertCurrency fmt (swapped s)
  /\ source_of (swapped s) = target_of s
  /\ target_of (swapped s) = source_of s
  /\ amount_of (swapped s) = amount_of s
  /\ ((0 <? amount_of s)%float = true -> source_of s <> target_of s ->
      exists k, swapCurrencies fmt s
                = AwaitFetch (started (swapped s)) (rate_url (target_of s) (source_of s)) k).
Proof.
  intros Hsame.
  assert (Hsrc : source_of (swapped s) = target_of s).
  { unfold source_of, swapped. cbn [set_toCurrencySelect set_fromCurrencySelect fromCurrencySelect].
    apply get_set_value. rewrite Hsame. apply get_value_offered. }
  assert (Htgt : target_of (swapped s) = source_of s).
  { unfold target_of at 1. unfold swapped.
    cbn [set_toCurrencySelect set_fromCurrencySelect toCurrencySelect].
    apply get_set_value. rewrite <- Hsame. apply get_value_offered. }
  assert (Hamt : amount_of (swapped s) = amount_of s) by reflexivity.
  repeat split; try assumption.
  intros Hpos Hne.
  destruct (convertCurrency_fetches fmt (swapped s)) as (k & Hk).
  - by rewrite Hamt.
  - rewrite Hsrc, Htgt. congruence.
  - exists k. rewrite Hsrc, Htgt in Hk. exact Hk.
Qed.

(** Swapping USD and EUR on the loaded page, then converting 100. *)
Lemma swap_then_convert_witness :
  swapCurrencies Sample.format (Sample.entered "100" "USD" "EUR")
  = convertCurrency Sample.format (swapped (Sample.entered "100" "USD" "EUR"))
  /\ source_of (swapped (Sample.entered "100" "USD" "EUR")) = "EUR"
  /\ target_of (swapped (Sample.entered "100" "USD" "EUR")) = "USD"
  /\ exists k, swapCurrencies Sample.format (Sample.entered "100" "USD" "EUR")
               = AwaitFetch (started (swapped (Sample.entered "100" "USD" "EUR")))
                   "https://api.frankfurter.dev/latest?from=EUR&to=USD" k.
Proof.
  destruct (swap_then_convert Sample.format (Sample.entered "100" "USD" "EUR"))
    as (Hconv & Hsrc & Htgt & _ & Hurl).
  - vm_compute; reflexivity.
  - split; [exact Hconv |]. split; [exact Hsrc |]. split; [exact Htgt |].
    apply Hurl; vm_compute; [reflexivity | discriminate].
Defined.

(** ** Two decimal places *)

Section DigitFacts.
Import Digits.
#[local] Arguments String.append !_ _ / : simpl nomatch.

Lemma digit_char_digit (d : Z) : 0 <= d < 10 -> is_digit (digit_char d) = true.
Proof.
  intros H.
  assert (E : d = 0 \/ d = 1 \/ d = 2 \/ d = 3 \/ d = 4 \/ d = 5 \/ d = 6 \/ d = 7
              \/ d = 8 \/ d = 9) by lia.
  repeat (destruct E as [-> | E]; [reflexivity |]). by subst.
Qed.

Lemma render_digits (fuel : nat) (n : Z) (acc : string) :
  0 <= n -> all_digits acc = true -> all_digits (render fuel n acc) = true.
Proof.
  revert n acc. induction fuel as [| fuel IH]; intros n acc Hn Hacc; cbn [render].
  - exact Hacc.
  - destruct (n <? 10) eqn:E.
    + apply Z.ltb_lt in E. cbn [all_digits]. by rewrite digit_char_digit, Hacc by lia.
    + apply IH; [apply Z.div_pos; lia |].
      cbn [all_digits]. rewrite digit_char_digit, Hacc; [done |].
      apply Z.mod_pos_bound. lia.
Qed.

Lemma of_Z_digits (n : Z) : all_digits (of_Z n) = true.
Proof.
  unfold of_Z. destruct (n <=? 0) eqn:E; [reflexivity |].
  apply Z.leb_gt in E. apply render_digits; [lia | reflexivity].
Qed.

Lemma all_digits_app (a b : string) :
  all_digits (a ++ b) = all_digits a && all_digits b.
Proof.
  induction a as [| c a IH]; cbn [String.append all_digits]; [reflexivity |].
  by rewrite IH, andb_assoc.
Qed.

Lemma zeros_digits (k : nat) : all_digits (zeros k) = true.
Proof. induction k as [| k IH]; [reflexivity | exact IH]. Qed.

Lemma length_zeros (k : nat) : String.length (zeros k) = k.
Proof. induction k as [| k IH]; cbn; [reflexivity | by rewrite IH]. Qed.

Lemma length_app (a b : string) :
  String.length (a ++ b) = (String.length a + String.length b)%nat.
Proof. induction a as [| c a IH]; cbn; [reflexivity | by rewrite IH]. Qed.

Lemma take_drop (k : nat) (m : string) : take k m ++ drop k m = m.
Proof.
  revert m. induction k as [| k IH]; intros [| c m]; cbn; try reflexivity.
  by rewrite IH.
Qed.

Lemma length_take (k : nat) (m : string) :
  (k <= String.length m)%nat -> String.length (take k m) = k.
Proof.
  revert m. induction k as [| k IH]; intros [| c m]; cbn; try reflexivity; try lia.
  intros H. rewrite IH; [reflexivity | lia].
Qed.

Lemma take_app_length (a b : string) : take (String.length a) (a ++ b) = a.
Proof.
  induction a as [| c a IH]; cbn; [by destruct b | by rewrite IH].
Qed.

Lemma drop_app_length (a b : string) : drop (String.length a) (a ++ b) = b.
Proof. induction a as [| c a IH]; cbn; [reflexivity | exact IH]. Qed.

(** A string of digits, three or more, cut two before its end. *)
Lemma cut_two_decimals (m : string) :
  all_digits m = true -> (3 <= String.length m)%nat ->
  two_decimals (take (String.length m - 2) m ++ "." ++ drop (String.length m - 2) m)
  = true.
Proof.
  intros Hd Hl.
  pose proof (take_drop (String.length m - 2) m) as Hm.
  pose proof (length_take (String.length m - 2) m ltac:(lia)) as Ha.
  set (a := take (String.length m - 2) m) in *.
  set (b := drop (String.length m - 2) m) in *.
  assert (Hb : String.length b = 2%nat).
  { pose proof (f_equal String.length Hm) as E. rewrite length_app in E. lia. }
  rewrite <- Hm, all_digits_app in Hd. apply andb_true_iff in Hd as [Hda Hdb].
  unfold two_decimals.
  replace (String.length (a ++ "." ++ b) - 3)%nat with (String.length a)
    by (rewrite !length_app, Hb; cbn; lia).
  rewrite take_app_length, drop_app_length. cbn [String.append].
  rewrite Hda, Hdb, Hb.
  destruct a; [cbn in Ha; lia | reflexivity].
Qed.

End DigitFacts.

(** Below [10^21], [toFixed(2)] of a number above zero has two decimal
    places. *)
Lemma toFixed_two_decimals (x : float) :
  (0 <? x)%float = true ->
  magnitude_below x (10 ^ 21) = true ->
  two_decimals (Number.toFixed x 2) = true.
Proof.
  unfold magnitude_below, Number.toFixed, Binary64.exact.
  rewrite FloatAxioms.ltb_spec, Prim2SF_zero. unfold SFltb.
  destruct (Prim2SF x) as [s | s | | s m e]; try discriminate.
  destruct s; [discriminate |]. intros _.
  destruct (Binary64.scale (Z.pos m) 1 (- e)) as [n d].
  intros Hlt. apply Z.ltb_lt in Hlt.
  destruct (d * 10 ^ 21 <=? n) eqn:E; [apply Z.leb_le in E; lia |].
  cbn [andb Nat.eqb String.append].
  set (digits := Digits.of_Z _).
  set (m' := Digits.zeros (3 - String.length digits) ++ digits).
  apply cut_two_decimals.
  - subst m'. rewrite all_digits_app, zeros_digits. apply of_Z_digits.
  - subst m'. rewrite length_app, length_zeros. lia.
Qed.

(** ** Same currency *)

(** C3, as amended: with a valid amount and the same currency on both
    sides, the result states the amount equal to itself, written as
    [toFixed(2)] writes it, and nothing is fetched; below [10^21] that is
    with two decimal places. *)
Theorem same_currency_message fmt (s : page) :
  (0 <? amount_of s)%float = true ->
  source_of s = target_of s ->
  convertCurrency fmt s
  = Return (displayResult
              (Number.toFixed (amount_of s) 2 ++ " " ++ source_of s ++ " is equal to "
               ++ Number.toFixed (amount_of s) 2 ++ " " ++ target_of s ++ ".")
              (started s))
  /\ (forall net, snd (run net (convertCurrency fmt s)) = [])
  /\ (magnitude_below (amount_of s) (10 ^ 21) = true ->
      two_decimals (Number.toFixed (amount_of s) 2) = true).
Proof.
  intros Hpos Heq. rewrite (convertCurrency_same fmt s Hpos Heq).
  split; [reflexivity |]. split; [intros net; reflexivity |].
  intros Hlt. by apply toFixed_two_decimals.
Qed.

(** Scenario 1 through the theorem. *)
Lemma same_currency_message_witness :
  convertCurrency Sample.format (Sample.entered "100" "USD" "USD")
  = Return (displayResult "100.00 USD is equal to 100.00 USD."
              (started (Sample.entered "100" "USD" "USD")))
  /\ two_decimals (Number.toFixed (amount_of (Sample.entered "100" "USD" "USD")) 2) = true.
Proof.
  destruct (same_currency_message Sample.format (Sample.entered "100" "USD" "USD"))
    as (Hmsg & _ & Htwo).
  - vm_compute; reflexivity.
  - vm_compute; reflexivity.
  - split; [| apply Htwo; vm_compute; reflexivity].
    rewrite Hmsg. vm_compute; reflexivity.
Defined.

(** C3, as stated, fails: 1e21 is a valid amount, and it is shown as
    "1e+21", not with two decimal places. *)
Lemma large_amount_not_two_decimals :
  (0 <? amount_of (Sample.entered "1e21" "USD" "USD"))%float = true
  /\ PrimFloat.is_finite (amount_of (Sample.entered "1e21" "USD" "USD")) = true
  /\ convertCurrency Sample.format (Sample.entered "1e21" "USD" "USD")
     = Return (displayResult "1e+21 USD is equal to 1e+21 USD."
                 (started (Sample.entered "1e21" "USD" "USD")))
  /\ Number.toFixed (amount_of (Sample.entered "1e21" "USD" "USD")) 2 = "1e+21"
  /\ two_decimals "1e+21" = false.
Proof. repeat split; vm_compute; reflexivity. Qed.

(** ** The conversion *)

(** C1, as amended: with a valid amount, two different currencies, a target
    that is a well-formed currency code and an answer whose rates hold a
    positive number for it, the amount is multiplied by the rate as parsed
    and as received, and the result reads: the amount as [toFixed(2)] writes
    it (two decimal places below [10^21]), the source, "is approximately",
    and the product as the host formats it in the target currency. *)
Theorem conversion_message fmt (s : page) net (r : response latest_doc)
    (rates : gmap string jsval) (rate : float) :
  (0 <? amount_of s)%float = true ->
  source_of s <> target_of s ->
  IsWellFormedCurrencyCode (target_of s) = true ->
  net (rate_url (source_of s) (target_of s)) = Fulfilled r ->
  ok r = true ->
  json r = Fulfilled (LatestDoc (Some rates)) ->
  rates !! target_of s = Some (JNum rate) ->
  (0 <? rate)%float = true ->
  run net (convertCurrency fmt s)
  = (displayResult
       (Number.toFixed (amount_of s) 2 ++ " " ++ source_of s ++ " is approximately "
        ++ fmt (target_of s) (amount_of s * rate)%float)
       (started s),
     [rate_url (source_of s) (target_of s)])
  /\ (magnitude_below (amount_of s) (10 ^ 21) = true ->
      two_decimals (Number.toFixed (amount_of s) 2) = true).
Proof.
  intros Hpos Hne Hcode Hnet Hok Hjson Hrate Hratepos.
  split; [| intros Hlt; by apply toFixed_two_decimals].
  enter_fetch s Hpos Hne.
  rewrite Hnet. cbn [run]. rewrite Hok. cbn [negb run]. rewrite Hjson.
  unfold Get. rewrite Hrate, (positive_truthy _ Hratepos), Hcode.
  reflexivity.
Qed.

(** Scenario 3 through the theorem. *)
Lemma conversion_message_witness :
  run (Sample.rates_service (Sample.euro_at "0.90"))
      (convertCurrency Sample.format (Sample.entered "100" "USD" "EUR"))
  = (displayResult "100.00 USD is approximately EUR 90.00"
       (started (Sample.entered "100" "USD" "EUR")),
     ["https://api.frankfurter.dev/latest?from=USD&to=EUR"])
  /\ two_decimals (Number.toFixed (amount_of (Sample.entered "100" "USD" "EUR")) 2) = true.
Proof.
  destruct (conversion_message Sample.format (Sample.entered "100" "USD" "EUR")
              (Sample.rates_service (Sample.euro_at "0.90"))
              (Response true 200 (Fulfilled (LatestDoc (Some (Sample.euro_at "0.90")))))
              (Sample.euro_at "0.90") (parseFloat "0.90"))
    as (Hrun & Htwo).
  - vm_compute; reflexivity.
  - vm_compute; discriminate.
  - vm_compute; reflexivity.
  - reflexivity.
  - reflexivity.
  - reflexivity.
  - vm_compute; reflexivity.
  - vm_compute; reflexivity.
  - split; [| apply Htwo; vm_compute; reflexivity].
    rewrite Hrun. vm_compute; reflexivity.
Defined.

(** C1, as stated, fails twice.  An amount of 1e21 is shown as "1e+21", not
    with two decimal places; and a target the catalog offers under a code
    that is not three letters gets the failure message although the answer
    holds a positive rate for it. *)
Lemma conversion_message_fails :
  (run (Sample.rates_service (Sample.euro_at "0.90"))
       (convertCurrency Sample.format (Sample.entered "1e21" "USD" "EUR"))
   = (displayResult "1e+21 USD is approximately EUR 900000000000000000000.00"
        (started (Sample.entered "1e21" "USD" "EUR")),
      ["https://api.frankfurter.dev/latest?from=USD&to=EUR"])
   /\ two_decimals "1e+21" = false)
  /\ (target_of (Sample.entered "100" "USD" "EURO") = "EURO"
      /\ ({[ "EURO" := JNum (parseFloat "0.90") ]} : gmap string jsval) !! "EURO"
         = Some (JNum (parseFloat "0.90"))
      /\ (0 <? parseFloat "0.90")%float = true
      /\ shown (fst (run (Sample.rates_service {[ "EURO" := JNum (parseFloat "0.90") ]})
                      (convertCurrency Sample.format (Sample.entered "100" "USD" "EURO"))))
         = shown (displayError conversion_failed_message
                    (started (Sample.entered "100" "USD" "EURO")))).
Proof. repeat split; vm_compute; reflexivity. Qed.

(** ** Numeric prefixes *)

Section ScanFacts.
Import Digits Literal.
#[local] Arguments String.append !_ _ / : simpl nomatch.

Variables (c : ascii) (rest : string).
Hypothesis stop : numeric_character c = false.

Lemma stop_digit : is_digit c = false.
Proof using stop. unfold numeric_character in stop. by destruct (is_digit c). Qed.

Lemma stop_point : c <> "."%char.
Proof using stop. intros ->. discriminate stop. Qed.

Lemma stop_exponent : is_exponent_indicator c = false.
Proof using stop.
  unfold numeric_character in stop.
  destruct (is_exponent_indicator c); [| reflexivity].
  by rewrite !orb_true_r in stop.
Qed.

Lemma stop_sign : sign_of (String c rest) = (false, String c rest).
Proof using stop.
  unfold numeric_character in stop.
  destruct (Ascii.eqb_spec c "+") as [-> | Hp]; [discriminate stop |].
  destruct (Ascii.eqb_spec c "-") as [-> | Hm]; [discriminate stop |].
  unfold sign_of.
  destruct c as [[] [] [] [] [] [] [] []]; try reflexivity; congruence.
Qed.

Lemma span_app (s a b : string) :
  span is_digit s = (a, b) ->
  span is_digit (s ++ String c rest) = (a, b ++ String c rest).
Proof using stop.
  revert a b. induction s as [| h s IH]; intros a b; cbn.
  - intros [= <- <-]. by rewrite stop_digit.
  - destruct (is_digit h).
    + destruct (span is_digit s) as [a' b']. intros [= <- <-].
      by rewrite (IH a' b' eq_refl).
    + by intros [= <- <-].
Qed.

Lemma sign_of_app (s : string) (neg : bool) (t : string) :
  sign_of s = (neg, t) ->
  sign_of (s ++ String c rest) = (neg, t ++ String c rest).
Proof using stop.
  destruct s as [| h s]; cbn [String.append].
  - intros [= <- <-]. apply stop_sign.
  - unfold sign_of.
    destruct h as [[] [] [] [] [] [] [] []]; intros [= <- <-]; reflexivity.
Qed.

Lemma exponent_part_app (s : string) (e : Z) (t : string) :
  exponent_part s = (e, t) ->
  exponent_part (s ++ String c rest) = (e, t ++ String c rest).
Proof using stop.
  destruct s as [| h s]; cbn [String.append exponent_part].
  - intros [= <- <-]. by rewrite stop_exponent.
  - destruct (is_exponent_indicator h); [| by intros [= <- <-]].
    destruct (sign_of s) as [neg r1] eqn:Es. rewrite (sign_of_app _ _ _ Es).
    destruct (span is_digit r1) as [ds r2] eqn:Ed. rewrite (span_app _ _ _ Ed).
    destruct ds; by intros [= <- <-].
Qed.

Lemma strip_prefix_app (p s t : string) :
  strip_prefix p s = Some t ->
  strip_prefix p (s ++ String c rest) = Some (t ++ String c rest).
Proof.
  revert s. induction p as [| a p IH]; intros s; cbn.
  - destruct s; by intros [= <-].
  - destruct s as [| b s]; [discriminate |]. cbn.
    destruct (Ascii.eqb a b); [apply IH | discriminate].
Qed.

Lemma strip_prefix_cons (a b : ascii) (p s : string) :
  strip_prefix (String a p) (String b s)
  = if Ascii.eqb a b then strip_prefix p s else None.
Proof. reflexivity. Qed.

(** A literal that is not [Infinity] starts with a digit or a point. *)
Lemma decimal_start (s : string) (l : literal) (t : string) (u : string) :
  strip_prefix "Infinity" s = None ->
  scan_unsigned s = Some (l, t) ->
  strip_prefix "Infinity" (s ++ u) = None.
Proof.
  unfold scan_unsigned. intros ->.
  destruct s as [| h s']; [discriminate |]. cbn [span String.append].
  destruct (is_digit h) eqn:Eh.
  - intros _. rewrite strip_prefix_cons.
    destruct (Ascii.eqb_spec "I" h) as [<- | _]; [discriminate Eh | reflexivity].
  - rewrite strip_prefix_cons.
    destruct h as [[] [] [] [] [] [] [] []]; try discriminate; reflexivity.
Qed.

(** The scanner reads [s ++ c rest] as it reads [s]: the same literal, and
    [c rest] after what followed it. *)
Lemma scan_unsigned_app (s : string) (l : literal) (t : string) :
  scan_unsigned s = Some (l, t) ->
  scan_unsigned (s ++ String c rest) = Some (l, t ++ String c rest).
Proof using stop.
  intros H. pose proof H as H'. revert H'. unfold scan_unsigned.
  destruct (strip_prefix "Infinity" s) as [r |] eqn:Ei.
  { intros [= <- <-]. by rewrite (strip_prefix_app _ _ _ Ei). }
  rewrite (decimal_start s l t _ Ei H). clear H Ei.
  destruct (span is_digit s) as [ip s1] eqn:Es. rewrite (span_app _ _ _ Es). clear Es.
  destruct s1 as [| h1 r1].
  - cbn [String.append].
    assert (E0 : exponent_part (String c rest) = (0, String c rest))
      by exact (exponent_part_app "" 0 "" eq_refl).
    pose proof stop_point as Hp.
    intros H. destruct ip as [| i0 ip']; [discriminate |].
    change (exponent_part "") with (0, "") in H. injection H as <- <-.
    destruct c as [[] [] [] [] [] [] [] []]; try (by rewrite E0); congruence.
  - cbn [String.append].
    destruct (Ascii.eqb_spec h1 ".") as [-> | Hh].
    + destruct (span is_digit r1) as [fp s2] eqn:Ef. rewrite (span_app _ _ _ Ef).
      destruct (exponent_part s2) as [e s3] eqn:Ee.
      rewrite (exponent_part_app _ _ _ Ee).
      destruct ip, fp; try discriminate; by intros [= <- <-].
    + destruct (exponent_part (String h1 r1)) as [e s3] eqn:Ee.
      pose proof (exponent_part_app _ _ _ Ee) as Ee'. cbn [String.append] in Ee'.
      destruct ip as [| i0 ip'].
      * destruct h1 as [[] [] [] [] [] [] [] []]; try discriminate; congruence.
      * destruct h1 as [[] [] [] [] [] [] [] []];
          try (rewrite Ee'; by intros [= <- <-]); congruence.
Qed.

Lemma scan_app (s : string) (neg : bool) (l : literal) (t : string) :
  scan s = Some (neg, l, t) ->
  scan (s ++ String c rest) = Some (neg, l, t ++ String c rest).
Proof using stop.
  unfold scan. destruct (sign_of s) as [n r] eqn:Es. rewrite (sign_of_app _ _ _ Es).
  destruct (scan_unsigned r) as [[l' t'] |] eqn:Eu; [| discriminate].
  intros [= <- <- <-]. by rewrite (scan_unsigned_app _ _ _ Eu).
Qed.

Lemma trim_start_app (s : string) :
  trim_start s <> "" ->
  trim_start (s ++ String c rest) = trim_start s ++ String c rest.
Proof.
  induction s as [| h s IH]; cbn [trim_start String.append]; [done |].
  destruct (is_white_space h); [exact IH | reflexivity].
Qed.

(** [parseFloat] reads the number at the start of a string and ignores
    what follows from the first character no literal is written with. *)
Lemma parseFloat_app (s : string) :
  (0 <? parseFloat s)%float = true ->
  parseFloat (s ++ String c rest) = parseFloat s.
Proof using stop.
  unfold parseFloat.
  destruct (scan (trim_start s)) as [[[neg l] t] |] eqn:E; [| discriminate].
  intros _. rewrite trim_start_app.
  - by rewrite (scan_app _ _ _ _ E).
  - intros E0. rewrite E0 in E. discriminate E.
Qed.

End ScanFacts.

(** C10: an amount that starts with a number above zero and goes on with a
    character no numeric literal is written with is accepted: the amount is
    what [parseFloat] reads of the start, the validation lets it pass, and
    the conversion goes on with that value.  With the same currency on both
    sides the result states it equal to itself; with two currencies the rate
    is requested, and with a well-formed target and a truthy rate in the
    answer the result shown is that value, and that value times the rate as
    the host formats it. *)
Theorem numeric_prefix_accepted fmt (s : page) (prefix : string) (c : ascii)
    (rest : string) :
  value (amountInput s) = prefix ++ String c rest ->
  (0 <? parseFloat prefix)%float = true ->
  numeric_character c = false ->
  amount_of s = parseFloat prefix
  /\ Number.isNaN (amount_of s) || (amount_of s <=? 0)%float = false
  /\ (source_of s = target_of s ->
      convertCurrency fmt s
      = Return (displayResult
                  (Number.toFixed (parseFloat prefix) 2 ++ " " ++ source_of s
                   ++ " is equal to " ++ Number.toFixed (parseFloat prefix) 2 ++ " "
                   ++ target_of s ++ ".")
                  (started s))
      /\ forall net,
           resultMessage (fst (run net (convertCurrency fmt s)))
           = Region (Number.toFixed (parseFloat prefix) 2 ++ " " ++ source_of s
                     ++ " is equal to " ++ Number.toFixed (parseFloat prefix) 2 ++ " "
                     ++ target_of s ++ ".") "block")
  /\ (source_of s <> target_of s ->
      exists k, convertCurrency fmt s
                = AwaitFetch (started s) (rate_url (source_of s) (target_of s)) k)
  /\ (forall net (r : response latest_doc) (rates : gmap string jsval) (v : jsval),
        source_of s <> target_of s ->
        IsWellFormedCurrencyCode (target_of s) = true ->
        net (rate_url (source_of s) (target_of s)) = Fulfilled r ->
        ok r = true ->
        json r = Fulfilled (LatestDoc (Some rates)) ->
        rates !! target_of s = Some v ->
        ToBoolean v = true ->
        run net (convertCurrency fmt s)
        = (displayResult
             (Number.toFixed (parseFloat prefix) 2 ++ " " ++ source_of s
              ++ " is approximately "
              ++ fmt (target_of s) (parseFloat prefix * ToNumber v)%float)
             (started s),
           [rate_url (source_of s) (target_of s)])
        /\ resultMessage (fst (run net (convertCurrency fmt s)))
           = Region (Number.toFixed (parseFloat prefix) 2 ++ " " ++ source_of s
                     ++ " is approximately "
                     ++ fmt (target_of s) (parseFloat prefix * ToNumber v)%float)
                    "block"
        /\ display (errorMessage (fst (run net (convertCurrency fmt s)))) = "none").
Proof.
  intros Hvalue Hpos Hstop.
  assert (Hamount : amount_of s = parseFloat prefix).
  { unfold amount_of. rewrite Hvalue. by apply parseFloat_app. }
  assert (Hvalid : (0 <? amount_of s)%float = true) by (by rewrite Hamount).
  split; [exact Hamount |].
  split; [by apply positive_passes |].
  split; [| split].
  - intros Heq. rewrite <- Hamount.
    rewrite (convertCurrency_same fmt s Hvalid Heq). split; [reflexivity |].
    intros net. reflexivity.
  - intros Hne. destruct (convertCurrency_fetches fmt s) as (k & Hk);
      [exact Hvalid | exact Hne | by exists k].
  - intros net r rates v Hne Hcode Hnet Hok Hjson Hrate Htruthy.
    rewrite <- Hamount.
    assert (E : run net (convertCurrency fmt s)
                = (displayResult
                     (Number.toFixed (amount_of s) 2 ++ " " ++ source_of s
                      ++ " is approximately "
                      ++ fmt (target_of s) (amount_of s * ToNumber v)%float)
                     (started s),
                   [rate_url (source_of s) (target_of s)])).
    { enter_fetch s Hvalid Hne.
      rewrite Hnet. cbn [run]. rewrite Hok. cbn [negb run]. rewrite Hjson.
      unfold Get. rewrite Hrate, Htruthy, Hcode. reflexivity. }
    rewrite E. repeat split.
Qed.

(** "12abc" is read as 12: with USD on both sides, and from USD to EUR at
    0.90. *)
Lemma numeric_prefix_accepted_witness :
  amount_of (Sample.entered "12abc" "USD" "USD") = parseFloat "12"
  /\ convertCurrency Sample.format (Sample.entered "12abc" "USD" "USD")
     = Return (displayResult "12.00 USD is equal to 12.00 USD."
                 (started (Sample.entered "12abc" "USD" "USD")))
  /\ run (Sample.rates_service (Sample.euro_at "0.90"))
         (convertCurrency Sample.format (Sample.entered "12abc" "USD" "EUR"))
     = (displayResult "12.00 USD is approximately EUR 10.80"
          (started (Sample.entered "12abc" "USD" "EUR")),
        ["https://api.frankfurter.dev/latest?from=USD&to=EUR"])
  /\ resultMessage (fst (run (Sample.rates_service (Sample.euro_at "0.90"))
                           (convertCurrency Sample.format
                              (Sample.entered "12abc" "USD" "EUR"))))
     = Region "12.00 USD is approximately EUR 10.80" "block".
Proof.
  destruct (numeric_prefix_accepted Sample.format (Sample.entered "12abc" "USD" "USD")
              "12" "a" "bc") as (Hamount & _ & Hsame & _ & _).
  - reflexivity.
  - vm_compute; reflexivity.
  - reflexivity.
  - destruct (numeric_prefix_accepted Sample.format (Sample.entered "12abc" "USD" "EUR")
                "12" "a" "bc") as (_ & _ & _ & _ & Hrate).
    + reflexivity.
    + vm_compute; reflexivity.
    + reflexivity.
    + destruct (Hrate (Sample.rates_service (Sample.euro_at "0.90"))
                  (Response true 200 (Fulfilled (LatestDoc (Some (Sample.euro_at "0.90")))))
                  (Sample.euro_at "0.90") (JNum (parseFloat "0.90")))
        as (Hrun & Hregion & _).
      * vm_compute; discriminate.
      * vm_compute; reflexivity.
      * vm_compute; reflexivity.
      * reflexivity.
      * reflexivity.
      * vm_compute; reflexivity.
      * vm_compute; reflexivity.
      * split; [exact Hamount |].
        destruct Hsame as [Heq _]; [vm_compute; reflexivity |].
        split; [rewrite Heq; vm_compute; reflexivity |].
        split; [rewrite Hrun; vm_compute; reflexivity
               | rewrite Hregion; vm_compute; reflexivity].
Defined.

(** ** There and back *)

(** *** The rounding of a product *)










Section RoundingError.
#[local] Open Scope Q_scope.







End RoundingError.

(** *** The product of two numbers above zero *)

Section RoundTrip.
#[local] Open Scope Q_scope.






End RoundTrip.

Section RoundTripPages.
#[local] Open Scope Q_scope.



End RoundTripPages.




(** * Further properties of the script *)

(** ** A catalog that loads *)

Lemma getCurrencies_success (s : page) net (r : response currencies_doc)
    (data : gmap string string) :
  net catalog_url = Fulfilled r ->
  ok r = true ->
  json r = Fulfilled (CurrenciesDoc data) ->
  run net (getCurrencies s)
  = (set_toCurrencySelect (Select.set_value "EUR")
       (set_fromCurrencySelect (Select.set_value "USD")
          (fold_left (add_option data) (sorted_keys data) s)),
     [catalog_url]).
Proof.
  intros Hnet Hok Hjson. unfold getCurrencies. cbn [run].
  change (API_URL ++ "/currencies") with catalog_url.
  rewrite Hnet. cbn [run]. rewrite Hok. cbn [negb run]. rewrite Hjson. reflexivity.
Qed.

Lemma add_options (data : gmap string string) (codes : list string) (s : page) :
  options (fromCurrencySelect (fold_left (add_option data) codes s))
  = (options (fromCurrencySelect s) ++ map (catalog_option data) codes)%list
  /\ options (toCurrencySelect (fold_left (add_option data) codes s))
     = (options (toCurrencySelect s) ++ map (catalog_option data) codes)%list.
Proof.
  revert s. induction codes as [| c codes IH]; intros s; cbn [fold_left map].
  - by rewrite !app_nil_r.
  - destruct (IH (add_option data s c)) as [-> ->].
    unfold add_option, catalog_option. cbn. by rewrite <- !app_assoc.
Qed.

Lemma compare_not_Gt_trans (a b c : string) :
  String.compare a b <> Gt -> String.compare b c <> Gt -> String.compare a c <> Gt.
Proof.
  revert b c. induction a as [| x a IH]; intros [| y b] [| z c]; cbn; try congruence.
  unfold Ascii.compare.
  destruct (N.compare_spec (N_of_ascii x) (N_of_ascii y)) as [Exy | Lxy | Gxy];
    [| | congruence];
    (destruct (N.compare_spec (N_of_ascii y) (N_of_ascii z)) as [Eyz | Lyz | Gyz];
     [| | congruence]).
  - rewrite Exy, Eyz, N.compare_refl. apply IH.
  - intros _ _. rewrite Exy, (proj2 (N.compare_lt_iff _ _) Lyz). congruence.
  - intros _ _. rewrite <- Eyz, (proj2 (N.compare_lt_iff _ _) Lxy). congruence.
  - intros _ _. rewrite (proj2 (N.compare_lt_iff _ _) (N.lt_trans _ _ _ Lxy Lyz)). congruence.
Qed.

Lemma leb_not_Gt (a b : string) : String.leb a b <-> String.compare a b <> Gt.
Proof. unfold String.leb, Is_true. destruct (String.compare a b); split; try done. Qed.

#[local] Instance leb_total : Total (fun a b : string => Is_true (String.leb a b)).
Proof.
  intros a b. destruct (String.leb_total a b) as [H | H]; rewrite H; [by left | by right].
Qed.

#[local] Instance leb_transitive : Transitive (fun a b : string => Is_true (String.leb a b)).
Proof.
  intros a b c Hab Hbc. apply leb_not_Gt in Hab, Hbc. apply leb_not_Gt.
  by apply (compare_not_Gt_trans a b c).
Qed.

Lemma sorted_keys_elem (data : gmap string string) (code : string) :
  code ∈ sorted_keys data <-> is_Some (data !! code).
Proof.
  unfold sorted_keys. rewrite merge_sort_Permutation, list_elem_of_fmap. split.
  - intros ([k v] & -> & H). apply elem_of_map_to_list in H. by exists v.
  - intros [v H]. exists (code, v). split; [reflexivity | by apply elem_of_map_to_list].
Qed.

Lemma sorted_keys_NoDup (data : gmap string string) : NoDup (sorted_keys data).
Proof.
  unfold sorted_keys. rewrite merge_sort_Permutation. apply NoDup_fst_map_to_list.
Qed.

Lemma sorted_keys_sorted (data : gmap string string) :
  StronglySorted (fun a b : string => Is_true (String.leb a b)) (sorted_keys data).
Proof. unfold sorted_keys. apply StronglySorted_merge_sort; apply _. Qed.

(** X1: when the catalog loads, both selects gain the same options after
    the ones they had: one per code of the catalog, each code once, in
    ascending code order, labelled with the code, " - " and its name. *)
Theorem catalog_options_added (s : page) net (r : response currencies_doc)
    (data : gmap string string) :
  net catalog_url = Fulfilled r ->
  ok r = true ->
  json r = Fulfilled (CurrenciesDoc data) ->
  exists codes : list string,
    options (fromCurrencySelect (fst (run net (getCurrencies s))))
    = (options (fromCurrencySelect s) ++ map (catalog_option data) codes)%list
    /\ options (toCurrencySelect (fst (run net (getCurrencies s))))
       = (options (toCurrencySelect s) ++ map (catalog_option data) codes)%list
    /\ StronglySorted (fun a b : string => Is_true (String.leb a b)) codes
    /\ NoDup codes
    /\ (forall code, code ∈ codes <-> is_Some (data !! code))
    /\ (forall code name, data !! code = Some name ->
        catalog_option data code = (code, code ++ " - " ++ name)).
Proof.
  intros Hnet Hok Hjson. exists (sorted_keys data).
  rewrite (getCurrencies_success s net r data Hnet Hok Hjson). cbn [fst].
  destruct (add_options data (sorted_keys data) s) as [Hfrom Hto].
  split; [exact Hfrom |]. split; [exact Hto |].
  split; [apply sorted_keys_sorted |]. split; [apply sorted_keys_NoDup |].
  split; [apply sorted_keys_elem |].
  intros code name H. unfold catalog_option. by rewrite H.
Qed.

Lemma catalog_options_added_witness :
  exists codes : list string,
    options (fromCurrencySelect (fst (run Sample.catalog_service (getCurrencies Sample.blank))))
    = ([] ++ map (catalog_option Sample.catalog) codes)%list
    /\ options (toCurrencySelect (fst (run Sample.catalog_service (getCurrencies Sample.blank))))
       = ([] ++ map (catalog_option Sample.catalog) codes)%list
    /\ StronglySorted (fun a b : string => Is_true (String.leb a b)) codes
    /\ NoDup codes
    /\ (forall code, code ∈ codes <-> is_Some (Sample.catalog !! code))
    /\ (forall code name, Sample.catalog !! code = Some name ->
        catalog_option Sample.catalog code = (code, code ++ " - " ++ name)).
Proof.
  apply (catalog_options_added Sample.blank Sample.catalog_service
           (Response true 200 (Fulfilled (CurrenciesDoc Sample.catalog))) Sample.catalog);
    reflexivity.
Defined.

Lemma index_of_missing (v : string) (os : list (string * string)) :
  ~ In v (map fst os) -> Select.index_of v os = None.
Proof.
  intros H. destruct (Select.index_of v os) as [i |] eqn:E; [| reflexivity].
  destruct (index_of_found _ _ _ E) as (o & Hn & <-).
  destruct H. apply in_map. by apply nth_error_In in Hn.
Qed.

(** Writing a value the select does not offer leaves nothing selected. *)
Lemma get_set_value_missing (v : string) (sel : select) :
  ~ In v (option_values sel) -> Select.get_value (Select.set_value v sel) = "".
Proof.
  intros H. unfold Select.get_value, Select.set_value. cbn [selectedIndex options].
  by rewrite (index_of_missing _ _ H).
Qed.

Lemma loaded_values (s : page) (data : gmap string string) :
  option_values (fromCurrencySelect (fold_left (add_option data) (sorted_keys data) s))
  = (option_values (fromCurrencySelect s) ++ sorted_keys data)%list
  /\ option_values (toCurrencySelect (fold_left (add_option data) (sorted_keys data) s))
     = (option_values (toCurrencySelect s) ++ sorted_keys data)%list.
Proof. apply add_options_values. Qed.

Lemma offered_after_load (code : string) (old : list string) (data : gmap string string) :
  In code (old ++ sorted_keys data)%list <-> In code old \/ is_Some (data !! code).
Proof. by rewrite in_app_iff, <- (list_elem_of_In (sorted_keys data)), sorted_keys_elem. Qed.

(** X2: when the catalog loads, the source reads "USD" if the source select
    then offers USD, and the target "EUR" if the target select then offers
    EUR; a select that does not offer its default is left with nothing
    selected, and reads as the empty string. *)
Theorem default_selections (s : page) net (r : response currencies_doc)
    (data : gmap string string) :
  net catalog_url = Fulfilled r ->
  ok r = true ->
  json r = Fulfilled (CurrenciesDoc data) ->
  (In "USD" (option_values (fromCurrencySelect s)) \/ is_Some (data !! "USD") ->
   source_of (fst (run net (getCurrencies s))) = "USD")
  /\ (~ (In "USD" (option_values (fromCurrencySelect s)) \/ is_Some (data !! "USD")) ->
      source_of (fst (run net (getCurrencies s))) = "")
  /\ (In "EUR" (option_values (toCurrencySelect s)) \/ is_Some (data !! "EUR") ->
      target_of (fst (run net (getCurrencies s))) = "EUR")
  /\ (~ (In "EUR" (option_values (toCurrencySelect s)) \/ is_Some (data !! "EUR")) ->
      target_of (fst (run net (getCurrencies s))) = "").
Proof.
  intros Hnet Hok Hjson.
  rewrite (getCurrencies_success s net r data Hnet Hok Hjson). cbn [fst].
  destruct (loaded_values s data) as [Hfrom Hto].
  unfold source_of, target_of.
  cbn [set_toCurrencySelect set_fromCurrencySelect fromCurrencySelect toCurrencySelect].
  repeat split; intros H.
  - apply get_set_value. right. rewrite Hfrom. by apply offered_after_load.
  - apply get_set_value_missing. rewrite Hfrom. by rewrite offered_after_load.
  - apply get_set_value. right. rewrite Hto. by apply offered_after_load.
  - apply get_set_value_missing. rewrite Hto. by rewrite offered_after_load.
Qed.

(** A catalog without the dollar: the source is left empty, the target is
    the euro. *)
Lemma default_selections_witness :
  source_of (fst (run (fun _ => Fulfilled (Response true 200
                         (Fulfilled (CurrenciesDoc {[ "EUR" := "Euro" ]}))))
                  (getCurrencies Sample.blank))) = ""
  /\ target_of (fst (run (fun _ => Fulfilled (Response true 200
                            (Fulfilled (CurrenciesDoc {[ "EUR" := "Euro" ]}))))
                     (getCurrencies Sample.blank))) = "EUR".
Proof.
  destruct (default_selections Sample.blank
              (fun _ => Fulfilled (Response true 200
                          (Fulfilled (CurrenciesDoc {[ "EUR" := "Euro" ]}))))
              (Response true 200 (Fulfilled (CurrenciesDoc {[ "EUR" := "Euro" ]})))
              {[ "EUR" := "Euro" ]} eq_refl eq_refl eq_refl)
    as (_ & Hnone & Heur & _).
  split.
  - apply Hnone. intros [[] | [name H]]. vm_compute in H. discriminate H.
  - apply Heur. right. exists "Euro". vm_compute. reflexivity.
Defined.

(** X3: when the catalog answer is a success but its body cannot be read as
    JSON, or is [null], the catalog error is shown and neither select
    changes. *)
Theorem catalog_body_unreadable (s : page) net (r : response currencies_doc) :
  net catalog_url = Fulfilled r ->
  ok r = true ->
  (exists e, json r = Rejected e) \/ json r = Fulfilled CurrenciesNull ->
  errorMessage (fst (run net (getCurrencies s))) = Region catalog_failed_message "block"
  /\ display (resultMessage (fst (run net (getCurrencies s)))) = "none"
  /\ fromCurrencySelect (fst (run net (getCurrencies s))) = fromCurrencySelect s
  /\ toCurrencySelect (fst (run net (getCurrencies s))) = toCurrencySelect s.
Proof.
  intros Hnet Hok Hbody. unfold getCurrencies. cbn [run].
  change (API_URL ++ "/currencies") with catalog_url.
  rewrite Hnet. cbn [run]. rewrite Hok. cbn [negb run].
  destruct Hbody as [[e ->] | ->]; repeat split.
Qed.

Lemma catalog_body_unreadable_witness :
  errorMessage (fst (run (fun _ => Fulfilled (Response true 200 (Rejected SyntaxError)))
                       (getCurrencies Sample.blank)))
  = Region catalog_failed_message "block"
  /\ display (resultMessage (fst (run (fun _ => Fulfilled (Response true 200 (Rejected SyntaxError)))
                       (getCurrencies Sample.blank)))) = "none"
  /\ fromCurrencySelect (fst (run (fun _ => Fulfilled (Response true 200 (Rejected SyntaxError)))
                       (getCurrencies Sample.blank))) = Select [] None
  /\ toCurrencySelect (fst (run (fun _ => Fulfilled (Response true 200 (Rejected SyntaxError)))
                       (getCurrencies Sample.blank))) = Select [] None.
Proof.
  apply (catalog_body_unreadable Sample.blank
           (fun _ => Fulfilled (Response true 200 (Rejected SyntaxError)))
           (Response true 200 (Rejected SyntaxError)) eq_refl eq_refl).
  left. by exists SyntaxError.
Defined.

(** X4: loading the catalog makes one request, to [/currencies], whatever
    the answer: there is no second attempt; and it leaves the amount as
    typed. *)
Theorem catalog_requested_once (s : page) net :
  snd (run net (getCurrencies s)) = [catalog_url]
  /\ amountInput (fst (run net (getCurrencies s))) = amountInput s.
Proof.
  unfold getCurrencies. cbn [run].
  change (API_URL ++ "/currencies") with catalog_url.
  destruct (net catalog_url) as [r | e]; [| by split].
  destruct (ok r); cbn [negb run]; [| by split].
  destruct (json r) as [[| data] | e]; try by split.
  split; [reflexivity |]. cbn [fst set_toCurrencySelect set_fromCurrencySelect amountInput].
  generalize (sorted_keys data). intros codes. revert s.
  induction codes as [| c codes IH]; intros s; cbn [fold_left]; [reflexivity |].
  by rewrite IH.
Qed.

(** ** What a conversion shows, asks and leaves alone *)

(** Goes through every path of [convertCurrency] and closes each completion
    with [leaf]: for [ends_in] goals, and for goals about [run]. *)
Ltac ends_paths leaf :=
  unfold convertCurrency; cbv zeta;
  destruct (_ || _); [constructor; leaf |];
  destruct (String.eqb _ _); [constructor; leaf |];
  constructor; intros [r | e] s1; [| constructor; leaf];
  destruct (ok r); cbn [negb]; [| constructor; leaf];
  constructor; intros [[| [rates |]] | e] s2; try (constructor; leaf);
  destruct (ToBoolean _); cbn [negb]; [| constructor; leaf];
  destruct (IsWellFormedCurrencyCode _); cbn [negb]; constructor; leaf.

Ltac run_paths net leaf :=
  unfold convertCurrency; cbv zeta;
  destruct (_ || _); [leaf |];
  destruct (String.eqb _ _); [leaf |];
  cbn [run run_among];
  destruct (net _) as [r | e]; [| leaf];
  cbn [run run_among]; destruct (ok r); cbn [negb run run_among]; [| leaf];
  destruct (json r) as [[| [rates |]] | e]; try leaf;
  destruct (ToBoolean _); cbn [negb]; [| leaf];
  destruct (IsWellFormedCurrencyCode _); cbn [negb]; leaf.

(** X5: however an invocation of [convertCurrency] completes, exactly one of
    the two message regions is displayed and the other is hidden. *)
Theorem one_message_at_completion fmt (s : page) :
  ends_in one_message_shown (convertCurrency fmt s)
  /\ forall net, one_message_shown (fst (run net (convertCurrency fmt s))).
Proof.
  assert (H : ends_in one_message_shown (convertCurrency fmt s)).
  { ends_paths ltac:((by left) || (by right)). }
  split; [exact H | intros net; exact (ends_in_run _ _ H net)].
Qed.

(** X6: a conversion changes neither the amount as typed nor the two
    selects, whatever its outcome. *)
Theorem conversion_keeps_inputs fmt (s : page) net :
  amountInput (fst (run net (convertCurrency fmt s))) = amountInput s
  /\ fromCurrencySelect (fst (run net (convertCurrency fmt s))) = fromCurrencySelect s
  /\ toCurrencySelect (fst (run net (convertCurrency fmt s))) = toCurrencySelect s.
Proof. run_paths net ltac:(by repeat split). Qed.

(** X7: a conversion asks for one rate when the amount is above zero and the
    two currencies differ, and for nothing otherwise; a failed request is not
    repeated. *)
Theorem conversion_requests fmt (s : page) net :
  snd (run net (convertCurrency fmt s))
  = if (0 <? amount_of s)%float && negb (String.eqb (source_of s) (target_of s))
    then [rate_url (source_of s) (target_of s)] else [].
Proof.
  destruct (0 <? amount_of s)%float eqn:Hpos; cbn [andb].
  - destruct (String.eqb (source_of s) (target_of s)) eqn:Heq; cbn [negb].
    + apply String.eqb_eq in Heq. by rewrite (convertCurrency_same fmt s Hpos Heq).
    + apply String.eqb_neq in Heq. enter_fetch s Hpos Heq.
      destruct (net _) as [r | e]; [| reflexivity].
      cbn [run]. destruct (ok r); cbn [negb run]; [| reflexivity].
      destruct (json r) as [[| [rates |]] | e]; try reflexivity.
      destruct (ToBoolean _); cbn [negb]; [| reflexivity].
      destruct (IsWellFormedCurrencyCode _); reflexivity.
  - apply not_positive_fails in Hpos. by rewrite (convertCurrency_invalid fmt s Hpos).
Qed.

(** X8: what a conversion shows in the end is settled by what it read when
    it was invoked: whatever other handlers do to the page while it waits,
    the two regions show the same, the button is the same, and the same
    request was made. *)
Theorem outcome_fixed_at_invocation fmt (s : page) net (other : page -> page) :
  visible (resultMessage (fst (run_among net other (convertCurrency fmt s))))
  = visible (resultMessage (fst (run net (convertCurrency fmt s))))
  /\ visible (errorMessage (fst (run_among net other (convertCurrency fmt s))))
     = visible (errorMessage (fst (run net (convertCurrency fmt s))))
  /\ convertButton (fst (run_among net other (convertCurrency fmt s)))
     = convertButton (fst (run net (convertCurrency fmt s)))
  /\ snd (run_among net other (convertCurrency fmt s))
     = snd (run net (convertCurrency fmt s)).
Proof. run_paths net ltac:(by repeat split). Qed.

Lemma same_inputs (s s0 : page) :
  amountInput s = amountInput s0 ->
  fromCurrencySelect s = fromCurrencySelect s0 ->
  toCurrencySelect s = toCurrencySelect s0 ->
  amount_of s = amount_of s0 /\ source_of s = source_of s0 /\ target_of s = target_of s0.
Proof. unfold amount_of, source_of, target_of. by intros -> -> ->. Qed.

(** What a conversion leaves to be seen is a result or an error put on the
    started page; which of the two, and with which text, is settled by the
    amount, the two selects and the service. *)
Lemma convert_outcome fmt net (s0 : page) :
  exists (b : bool) (msg : string), forall s : page,
    amountInput s = amountInput s0 ->
    fromCurrencySelect s = fromCurrencySelect s0 ->
    toCurrencySelect s = toCurrencySelect s0 ->
    shown (fst (run net (convertCurrency fmt s)))
    = shown ((if b then displayResult msg else displayError msg) (started s)).
Proof.
  destruct (0 <? amount_of s0)%float eqn:Hpos.
  2: { exists false, invalid_amount_message. intros s Hi Hf Ht.
       destruct (same_inputs s s0 Hi Hf Ht) as (Ha & _ & _).
       rewrite convertCurrency_invalid; [reflexivity |].
       apply not_positive_fails. by rewrite Ha. }
  destruct (String.eqb (source_of s0) (target_of s0)) eqn:Heq.
  { apply String.eqb_eq in Heq.
    exists true, (Number.toFixed (amount_of s0) 2 ++ " " ++ source_of s0 ++ " is equal to "
                  ++ Number.toFixed (amount_of s0) 2 ++ " " ++ target_of s0 ++ ".").
    intros s Hi Hf Ht. destruct (same_inputs s s0 Hi Hf Ht) as (Ha & Hs & Hd).
    rewrite convertCurrency_same; [by rewrite Ha, Hs, Hd | by rewrite Ha | by rewrite Hs, Hd]. }
  apply String.eqb_neq in Heq.
  assert (Hin : forall s, amountInput s = amountInput s0 ->
                  fromCurrencySelect s = fromCurrencySelect s0 ->
                  toCurrencySelect s = toCurrencySelect s0 ->
                  (0 <? amount_of s)%float = true /\ source_of s <> target_of s
                  /\ amount_of s = amount_of s0 /\ source_of s = source_of s0
                  /\ target_of s = target_of s0).
  { intros s Hi Hf Ht. destruct (same_inputs s s0 Hi Hf Ht) as (Ha & Hs & Hd).
    rewrite Ha, Hs, Hd. by repeat split. }
  destruct (net (rate_url (source_of s0) (target_of s0))) as [r | e] eqn:Enet.
  2: { exists false, conversion_failed_message. intros s Hi Hf Ht.
       destruct (Hin s Hi Hf Ht) as (Hp & Hn & Ha & Hs & Hd).
       enter_fetch s Hp Hn. rewrite Hs, Hd, Enet. apply shown_failure. }
  destruct (ok r) eqn:Eok.
  2: { exists false, conversion_failed_message. intros s Hi Hf Ht.
       destruct (Hin s Hi Hf Ht) as (Hp & Hn & Ha & Hs & Hd).
       enter_fetch s Hp Hn. rewrite Hs, Hd, Enet. cbn [run]. rewrite Eok.
       apply shown_failure. }
  destruct (json r) as [[| [rates |]] | e] eqn:Ejson.
  1, 3, 4: exists false, conversion_failed_message; intros s Hi Hf Ht;
    destruct (Hin s Hi Hf Ht) as (Hp & Hn & Ha & Hs & Hd);
    enter_fetch s Hp Hn; rewrite Hs, Hd, Enet; cbn [run]; rewrite Eok; cbn [negb run];
    rewrite Ejson; apply shown_failure.
  destruct (ToBoolean (Get rates (target_of s0))) eqn:Erate.
  2: { exists false, conversion_failed_message. intros s Hi Hf Ht.
       destruct (Hin s Hi Hf Ht) as (Hp & Hn & Ha & Hs & Hd).
       enter_fetch s Hp Hn. rewrite Hs, Hd, Enet. cbn [run]. rewrite Eok. cbn [negb run].
       rewrite Ejson, Erate. apply shown_failure. }
  destruct (IsWellFormedCurrencyCode (target_of s0)) eqn:Ecode.
  2: { exists false, conversion_failed_message. intros s Hi Hf Ht.
       destruct (Hin s Hi Hf Ht) as (Hp & Hn & Ha & Hs & Hd).
       enter_fetch s Hp Hn. rewrite Hs, Hd, Enet. cbn [run]. rewrite Eok. cbn [negb run].
       rewrite Ejson, Erate, Ecode. apply shown_failure. }
  exists true, (Number.toFixed (amount_of s0) 2 ++ " " ++ source_of s0 ++ " is approximately "
                ++ fmt (target_of s0)
                     (amount_of s0 * ToNumber (Get rates (target_of s0)))%float).
  intros s Hi Hf Ht. destruct (Hin s Hi Hf Ht) as (Hp & Hn & Ha & Hs & Hd).
  enter_fetch s Hp Hn. rewrite Hs, Hd, Enet. cbn [run]. rewrite Eok. cbn [negb run].
  rewrite Ejson, Erate, Ecode, Ha. reflexivity.
Qed.

Lemma outcome_on_shown (b : bool) (msg : string) (p q : page) :
  shown p = shown q ->
  shown ((if b then displayResult msg else displayError msg) (started p))
  = shown ((if b then displayResult msg else displayError msg) (started q)).
Proof.
  intros H.
  assert (E : forall x, shown ((if b then displayResult msg else displayError msg) (started x))
                        = shown ((if b then displayResult msg else displayError msg)
                                   (started (shown x)))) by (intros x; by destruct b).
  by rewrite (E p), (E q), H.
Qed.

(** X9: converting again, with the page and the service as they are, shows
    the same page again: the same message in the same region, everything
    but the console as it was. *)
Theorem conversion_repeatable fmt (s : page) net :
  shown (fst (run net (convertCurrency fmt (fst (run net (convertCurrency fmt s))))))
  = shown (fst (run net (convertCurrency fmt s))).
Proof.
  destruct (convert_outcome fmt net s) as (b & msg & H).
  pose proof (H s eq_refl eq_refl eq_refl) as H1.
  set (p1 := fst (run net (convertCurrency fmt s))) in *.
  rewrite (H p1).
  - rewrite (outcome_on_shown b msg p1 _ H1), H1. by destruct b.
  - pose proof (f_equal amountInput H1) as E. by destruct b.
  - pose proof (f_equal fromCurrencySelect H1) as E. by destruct b.
  - pose proof (f_equal toCurrencySelect H1) as E. by destruct b.
Qed.

(** ** Amounts that are refused *)

Lemma binary_round_signed (sx : bool) (mx : positive) (ex : Z) :
  signed sx (binary_round prec emax sx mx ex).
Proof.
  unfold binary_round, binary_round_aux.
  destruct (shl_align _ _ _) as [mz ez].
  destruct (shr_fexp _ _ _ _ _) as [mrs' e'].
  destruct (shr_fexp _ _ _ _ _) as [mrs'' e''].
  destruct (shr_m mrs''); [reflexivity | | exact I].
  destruct (_ <=? _); reflexivity.
Qed.

Lemma SFldexp_signed (sx : bool) (x : spec_float) (e : Z) :
  signed sx x -> signed sx (SFldexp prec emax x e).
Proof.
  destruct x as [s | s | | s m ex]; cbn [SFldexp signed]; try done.
  intros ->. apply binary_round_signed.
Qed.

Lemma of_uint63_signed (n : PrimInt63.int) : signed false (Prim2SF (of_uint63 n)).
Proof.
  rewrite of_uint63_spec. unfold binary_normalize.
  pose proof (Uint63.to_Z_bounded n) as Hn.
  destruct (Uint63.to_Z n) as [| p | p]; [reflexivity | apply binary_round_signed | lia].
Qed.

(** What [SF2Prim] makes of a negative spec float is not above zero. *)
Lemma negative_not_above_zero (x : spec_float) :
  signed true x -> (0 <? SF2Prim x)%float = false.
Proof.
  destruct x as [s | s | | s m e]; cbn [signed]; try (intros ->); try reflexivity.
  unfold SF2Prim.
  rewrite FloatAxioms.ltb_spec, Prim2SF_zero, opp_spec, Z_ldexp_spec.
  pose proof (SFldexp_signed false _ e (of_uint63_signed (Uint63.of_Z (Z.pos m)))) as H.
  destruct (SFldexp _ _ _ _) as [s | s | | s m' e']; cbn [signed] in H; try subst s;
    reflexivity.
Qed.

Lemma of_ratio_negative (n d : Z) : (0 <? Binary64.of_ratio true n d)%float = false.
Proof.
  unfold Binary64.of_ratio.
  destruct (n <=? 0); [reflexivity |].
  destruct (Binary64.scale _ _ _) as [n' d'].
  destruct (Binary64.nearest_even n' d'); try reflexivity.
  by apply negative_not_above_zero.
Qed.

Lemma number_of_negative (l : Literal.literal) :
  (0 <? Literal.number_of true l)%float = false.
Proof.
  destruct l as [| ip fp e]; [reflexivity |].
  unfold Literal.number_of, Binary64.of_decimal.
  destruct (0 <=? _); apply of_ratio_negative.
Qed.

(** X10: an amount whose first character after leading white space is a
    minus sign is always refused: whatever follows, it is read as NaN or as
    a number that is not above zero, and no request is made. *)
Theorem minus_sign_rejected fmt (s : page) (t : string) :
  Literal.trim_start (value (amountInput s)) = String "-" t ->
  convertCurrency fmt s = Return (displayError invalid_amount_message (started s))
  /\ forall net, snd (run net (convertCurrency fmt s)) = [].
Proof.
  intros Hv.
  assert (H : (0 <? amount_of s)%float = false).
  { unfold amount_of, parseFloat. rewrite Hv.
    unfold Literal.scan. cbn [Literal.sign_of].
    destruct (Literal.scan_unsigned t) as [[l rest] |]; [| reflexivity].
    apply number_of_negative. }
  apply not_positive_fails in H.
  rewrite (convertCurrency_invalid fmt s H). split; [reflexivity | intros net; reflexivity].
Qed.

Lemma minus_sign_rejected_witness :
  convertCurrency Sample.format (Sample.entered " -0.01" "USD" "EUR")
  = Return (displayError invalid_amount_message
              (started (Sample.entered " -0.01" "USD" "EUR"))).
Proof.
  apply (minus_sign_rejected Sample.format (Sample.entered " -0.01" "USD" "EUR") "0.01").
  reflexivity.
Defined.

Lemma parseFloat_no_start (v : string) : no_number_start v = true -> parseFloat v = nan.
Proof.
  unfold no_number_start, parseFloat.
  destruct (Literal.trim_start v) as [| c t]; [reflexivity |].
  destruct c as [[] [] [] [] [] [] [] []]; intros H; try discriminate H; reflexivity.
Qed.

(** X11: an amount that, after leading white space, is empty or starts with
    a character other than a digit, a sign, a point or the I of Infinity is
    refused at once: a blank field, "abc", "$100", ",5". *)
Theorem not_a_number_rejected fmt (s : page) :
  no_number_start (value (amountInput s)) = true ->
  convertCurrency fmt s = Return (displayError invalid_amount_message (started s))
  /\ forall net, snd (run net (convertCurrency fmt s)) = [].
Proof.
  intros Hv.
  assert (H : Number.isNaN (amount_of s) || (amount_of s <=? 0)%float = true).
  { unfold amount_of. by rewrite (parseFloat_no_start _ Hv). }
  rewrite (convertCurrency_invalid fmt s H). split; [reflexivity | intros net; reflexivity].
Qed.

Lemma not_a_number_rejected_witness :
  convertCurrency Sample.format (Sample.entered "$100" "USD" "EUR")
  = Return (displayError invalid_amount_message
              (started (Sample.entered "$100" "USD" "EUR"))).
Proof.
  apply (not_a_number_rejected Sample.format (Sample.entered "$100" "USD" "EUR")).
  reflexivity.
Defined.

(** ** Rates that are not positive numbers *)

(** X12: the script asks of a rate only that it be truthy.  With a valid
    amount, two different currencies and a well-formed target, any truthy
    entry gives a result: the amount times the entry converted to a number,
    be it a negative number, [true] (one) or a string. *)
Theorem truthy_rate_converted fmt (s : page) net (r : response latest_doc)
    (rates : gmap string jsval) (v : jsval) :
  (0 <? amount_of s)%float = true ->
  source_of s <> target_of s ->
  IsWellFormedCurrencyCode (target_of s) = true ->
  net (rate_url (source_of s) (target_of s)) = Fulfilled r ->
  ok r = true ->
  json r = Fulfilled (LatestDoc (Some rates)) ->
  rates !! target_of s = Some v ->
  ToBoolean v = true ->
  run net (convertCurrency fmt s)
  = (displayResult
       (Number.toFixed (amount_of s) 2 ++ " " ++ source_of s ++ " is approximately "
        ++ fmt (target_of s) (amount_of s * ToNumber v)%float)
       (started s),
     [rate_url (source_of s) (target_of s)]).
Proof.
  intros Hpos Hne Hcode Hnet Hok Hjson Hrate Htruthy.
  enter_fetch s Hpos Hne.
  rewrite Hnet. cbn [run]. rewrite Hok. cbn [negb run]. rewrite Hjson.
  unfold Get. rewrite Hrate, Htruthy, Hcode. reflexivity.
Qed.

(** A rate of -0.9, and a rate given as the string "0.9". *)
Lemma truthy_rate_converted_witness :
  run (Sample.rates_service (Sample.euro_at "-0.9"))
      (convertCurrency Sample.format (Sample.entered "100" "USD" "EUR"))
  = (displayResult "100.00 USD is approximately EUR -90.00"
       (started (Sample.entered "100" "USD" "EUR")),
     ["https://api.frankfurter.dev/latest?from=USD&to=EUR"])
  /\ run (Sample.rates_service {[ "EUR" := JStr "0.9" ]})
         (convertCurrency Sample.format (Sample.entered "100" "USD" "EUR"))
     = (displayResult "100.00 USD is approximately EUR 90.00"
          (started (Sample.entered "100" "USD" "EUR")),
        ["https://api.frankfurter.dev/latest?from=USD&to=EUR"]).
Proof.
  split.
  - rewrite (truthy_rate_converted Sample.format (Sample.entered "100" "USD" "EUR")
               (Sample.rates_service (Sample.euro_at "-0.9"))
               (Response true 200 (Fulfilled (LatestDoc (Some (Sample.euro_at "-0.9")))))
               (Sample.euro_at "-0.9") (JNum (parseFloat "-0.9")));
      try reflexivity; vm_compute; (reflexivity || discriminate).
  - rewrite (truthy_rate_converted Sample.format (Sample.entered "100" "USD" "EUR")
               (Sample.rates_service {[ "EUR" := JStr "0.9" ]})
               (Response true 200 (Fulfilled (LatestDoc (Some {[ "EUR" := JStr "0.9" ]}))))
               {[ "EUR" := JStr "0.9" ]} (JStr "0.9"));
      try reflexivity; vm_compute; (reflexivity || discriminate).
Defined.

(** ** Without a catalog *)

(** X13: on a page whose selects have no options, as it is left when the
    catalog request fails on a fresh page, both currencies read as the empty
    string: every valid amount is then answered, without a request, by the
    same-currency message with no currency in it. *)
Theorem conversion_without_catalog fmt (s : page) net :
  options (fromCurrencySelect s) = [] ->
  options (toCurrencySelect s) = [] ->
  catalog_fetch_fails (net catalog_url) ->
  (0 <? amount_of s)%float = true ->
  convertCurrency fmt (fst (run net (getCurrencies s)))
  = Return (displayResult
              (Number.toFixed (amount_of s) 2 ++ "  is equal to "
               ++ Number.toFixed (amount_of s) 2 ++ " .")
              (started (fst (run net (getCurrencies s))))).
Proof.
  intros Hfrom Hto Hfail Hpos.
  assert (Hsel : forall sel : select, options sel = [] -> Select.get_value sel = "").
  { intros [os i]. cbn. intros ->. destruct i as [[| i] |]; reflexivity. }
  assert (Hkeep : amountInput (fst (run net (getCurrencies s))) = amountInput s
                  /\ fromCurrencySelect (fst (run net (getCurrencies s))) = fromCurrencySelect s
                  /\ toCurrencySelect (fst (run net (getCurrencies s))) = toCurrencySelect s).
  { unfold getCurrencies. cbn [run].
    change (API_URL ++ "/currencies") with catalog_url.
    inversion Hfail as [e He | r Hr He]; [| rewrite Hr]; repeat split. }
  destruct Hkeep as (Ha & Hf & Ht).
  set (p := fst (run net (getCurrencies s))) in *.
  assert (Hp : amount_of p = amount_of s) by (unfold amount_of; by rewrite Ha).
  assert (Hs : source_of p = "") by (unfold source_of; rewrite Hf; by apply Hsel).
  assert (Hd : target_of p = "") by (unfold target_of; rewrite Ht; by apply Hsel).
  rewrite (convertCurrency_same fmt p); [| by rewrite Hp | by rewrite Hs, Hd].
  by rewrite Hp, Hs, Hd.
Qed.

Lemma conversion_without_catalog_witness :
  convertCurrency Sample.format
    (fst (run Sample.server_error
            (getCurrencies (Page (Input "100") (Select [] None) (Select [] None)
                              (Button false) (Region "" "none") (Region "" "none") []))))
  = Return (displayResult "100.00  is equal to 100.00 ."
              (started (fst (run Sample.server_error
                 (getCurrencies (Page (Input "100") (Select [] None) (Select [] None)
                                   (Button false) (Region "" "none") (Region "" "none") [])))))).
Proof.
  rewrite (conversion_without_catalog Sample.format
             (Page (Input "100") (Select [] None) (Select [] None)
                (Button false) (Region "" "none") (Region "" "none") [])
             Sample.server_error eq_refl eq_refl).
  - vm_compute. reflexivity.
  - apply catalog_status. reflexivity.
  - vm_compute. reflexivity.
Defined.

(** ** The two selects, kept alike *)

(** X14: loading the catalog keeps two selects that have the same options
    alike, whatever the service answers: the same options are added to
    both, or none. *)
Theorem selects_stay_alike (s : page) net :
  options (fromCurrencySelect s) = options (toCurrencySelect s) ->
  options (fromCurrencySelect (fst (run net (getCurrencies s))))
  = options (toCurrencySelect (fst (run net (getCurrencies s)))).
Proof.
  intros H. unfold getCurrencies. cbn [run fst].
  destruct (net _) as [r | e]; [| exact H].
  destruct (ok r); cbn [negb run fst]; [| exact H].
  destruct (json r) as [[| data] | e]; try exact H.
  change (options (fromCurrencySelect (fold_left (add_option data) (sorted_keys data) s))
          = options (toCurrencySelect (fold_left (add_option data) (sorted_keys data) s))).
  destruct (add_options data (sorted_keys data) s) as [-> ->]. by rewrite H.
Qed.

Lemma selects_stay_alike_witness :
  options (fromCurrencySelect (fst (run Sample.catalog_service (getCurrencies Sample.blank))))
  = options (toCurrencySelect (fst (run Sample.catalog_service (getCurrencies Sample.blank)))).
Proof. apply (selects_stay_alike Sample.blank Sample.catalog_service). reflexivity. Defined.

Lemma swapped_reads (s : page) :
  option_values (fromCurrencySelect s) = option_values (toCurrencySelect s) ->
  source_of (swapped s) = target_of s
  /\ target_of (swapped s) = source_of s
  /\ option_values (fromCurrencySelect (swapped s)) = option_values (fromCurrencySelect s)
  /\ option_values (toCurrencySelect (swapped s)) = option_values (toCurrencySelect s).
Proof.
  intros Hsame. repeat split.
  - unfold source_of, swapped.
    cbn [set_toCurrencySelect set_fromCurrencySelect fromCurrencySelect].
    apply get_set_value. rewrite Hsame. apply get_value_offered.
  - unfold target_of at 1. unfold swapped.
    cbn [set_toCurrencySelect set_fromCurrencySelect toCurrencySelect].
    apply get_set_value. rewrite <- Hsame. apply get_value_offered.
Qed.

Lemma run_keeps_selects fmt (s : page) net :
  fromCurrencySelect (fst (run net (convertCurrency fmt s))) = fromCurrencySelect s
  /\ toCurrencySelect (fst (run net (convertCurrency fmt s))) = toCurrencySelect s.
Proof.
  destruct (convert_outcome fmt net s) as (b & msg & H).
  pose proof (H s eq_refl eq_refl eq_refl) as H1.
  split; [pose proof (f_equal fromCurrencySelect H1) as E
         | pose proof (f_equal toCurrencySelect H1) as E]; by destruct b.
Qed.

(** X15: on a page whose two selects offer the same values, swapping twice,
    each swap with the conversion it starts run to its end, brings back the
    selections the page had. *)
Theorem swap_twice_restores fmt (s : page) net :
  option_values (fromCurrencySelect s) = option_values (toCurrencySelect s) ->
  source_of (fst (run net (swapCurrencies fmt (fst (run net (swapCurrencies fmt s))))))
  = source_of s
  /\ target_of (fst (run net (swapCurrencies fmt (fst (run net (swapCurrencies fmt s))))))
     = target_of s.
Proof.
  intros Hsame.
  assert (Hstep : forall p : page,
             option_values (fromCurrencySelect p) = option_values (toCurrencySelect p) ->
             source_of (fst (run net (swapCurrencies fmt p))) = target_of p
             /\ target_of (fst (run net (swapCurrencies fmt p))) = source_of p
             /\ option_values (fromCurrencySelect (fst (run net (swapCurrencies fmt p))))
                = option_values (toCurrencySelect (fst (run net (swapCurrencies fmt p))))).
  { intros p Hp. change (swapCurrencies fmt p) with (convertCurrency fmt (swapped p)).
    destruct (run_keeps_selects fmt (swapped p) net) as [Hf Ht].
    destruct (swapped_reads p Hp) as (Hs & Hd & Hof & Hot).
    unfold source_of at 1, target_of at 2. rewrite Hf, Ht.
    split; [exact Hs |]. split; [exact Hd |]. by rewrite Hof, Hot. }
  destruct (Hstep s Hsame) as (H1 & H2 & H3).
  destruct (Hstep _ H3) as (H4 & H5 & _).
  split; congruence.
Qed.

Lemma swap_twice_restores_witness :
  source_of (fst (run (Sample.rates_service (Sample.euro_at "0.90"))
    (swapCurrencies Sample.format
       (fst (run (Sample.rates_service (Sample.euro_at "0.90"))
               (swapCurrencies Sample.format (Sample.entered "100" "USD" "EUR")))))))
  = "USD"
  /\ target_of (fst (run (Sample.rates_service (Sample.euro_at "0.90"))
    (swapCurrencies Sample.format
       (fst (run (Sample.rates_service (Sample.euro_at "0.90"))
               (swapCurrencies Sample.format (Sample.entered "100" "USD" "EUR")))))))
     = "EUR".
Proof.
  apply (swap_twice_restores Sample.format (Sample.entered "100" "USD" "EUR")
           (Sample.rates_service (Sample.euro_at "0.90"))).
  vm_compute. reflexivity.
Defined.

(** ** While waiting, and on the console *)

(** X16: when a conversion suspends for the rate, it leaves the page with
    the convert button disabled and both message regions hidden, the amount
    and the selects as they were. *)
Theorem waiting_page fmt (s : page) :
  match convertCurrency fmt s with
  | Return _ => True
  | AwaitFetch p _ _ | AwaitJson p _ _ =>
      disabled (convertButton p) = true
      /\ display (resultMessage p) = "none"
      /\ display (errorMessage p) = "none"
      /\ amountInput p = amountInput s
      /\ fromCurrencySelect p = fromCurrencySelect s
      /\ toCurrencySelect p = toCurrencySelect s
  end.
Proof.
  unfold convertCurrency. cbv zeta.
  destruct (_ || _); [exact I |].
  destruct (String.eqb _ _); [exact I |].
  repeat split.
Qed.

